(** * glowl::Mesh (include/glowl/Mesh.hpp): a shallow embedding

    The Mesh aggregate owns a vertex-array object, a list of vertex buffer
    objects and one index buffer object.  Its member functions are sequences
    of OpenGL calls, so the embedding is a state-and-error monad over a small
    model of the OpenGL context: the bindings, the vertex-array objects with
    the attribute wiring they capture, the buffer stores, the error flag and
    the log of calls issued.  Indexing a std::vector out of range is
    undefined behaviour in C++; here it is the result [OutOfBounds]. *)

From Stdlib Require Import ZArith Lia List.
From stdpp Require Import base numbers option list gmap.

Local Open Scope Z_scope.

(** ** Integer types and conversions *)

Definition GLenum := Z.      (* unsigned 32 bit *)
Definition GLuint := Z.      (* unsigned 32 bit *)
Definition GLint := Z.       (* signed 32 bit *)
Definition GLsizei := Z.     (* signed 32 bit *)
Definition GLsizeiptr := Z.  (* signed 64 bit *)
Definition GLboolean := bool.
Definition GLubyte := Z.     (* unsigned 8 bit *)
Definition size_t := N.      (* unsigned 64 bit *)

(** static_cast<GLuint>: reduction modulo 2^32. *)
Definition to_GLuint (z : Z) : GLuint := z mod 2 ^ 32.

(** Conversion to size_t: reduction modulo 2^64. *)
Definition to_size_t (z : Z) : Z := z mod 2 ^ 64.

(** Conversion of an integer to GLsizei: two's complement on 32 bits. *)
Definition to_GLsizei (z : Z) : GLsizei := (z + 2 ^ 31) mod 2 ^ 32 - 2 ^ 31.

(** Conversion of an integer to GLsizeiptr: two's complement on 64 bits. *)
Definition to_GLsizeiptr (z : Z) : GLsizeiptr := (z + 2 ^ 63) mod 2 ^ 64 - 2 ^ 63.

(** ** Enumerants of the OpenGL headers (glad/glad.h) used by Mesh.hpp *)

Definition GL_NO_ERROR : GLenum := 0.
Definition GL_INVALID_VALUE : GLenum := 0x0501.
Definition GL_INVALID_OPERATION : GLenum := 0x0502.
Definition GL_TRIANGLES : GLenum := 0x0004.
Definition GL_UNSIGNED_BYTE : GLenum := 0x1401.
Definition GL_UNSIGNED_SHORT : GLenum := 0x1403.
Definition GL_UNSIGNED_INT : GLenum := 0x1405.
Definition GL_FLOAT : GLenum := 0x1406.
Definition GL_ARRAY_BUFFER : GLenum := 0x8892.
Definition GL_ELEMENT_ARRAY_BUFFER : GLenum := 0x8893.
Definition GL_STATIC_DRAW : GLenum := 0x88E4.

(** A data pointer is modelled by the bytes readable from its address on. *)
Definition DataPtr := list GLubyte.

(** ** The OpenGL context *)

(** State of one generic vertex attribute inside a vertex-array object.
    [attrib_buffer] is the array-buffer binding captured by
    glVertexAttribPointer: the buffer the attribute reads from. *)
Record VertexAttrib := {
  attrib_enabled : bool;
  attrib_size : GLint;
  attrib_type : GLenum;
  attrib_normalized : GLboolean;
  attrib_stride : GLsizei;
  attrib_pointer : Z;
  attrib_buffer : GLuint
}.

Definition attrib_init : VertexAttrib :=
  {| attrib_enabled := false; attrib_size := 4; attrib_type := GL_FLOAT;
     attrib_normalized := false; attrib_stride := 0; attrib_pointer := 0;
     attrib_buffer := 0 |}.

Record VertexArrayObject := {
  vao_element_array_buffer : GLuint;
  vao_attribs : gmap Z VertexAttrib
}.

Definition vao_init : VertexArrayObject :=
  {| vao_element_array_buffer := 0; vao_attribs := ∅ |}.

Record BufferStore := {
  store_size : GLsizeiptr;
  store_usage : GLenum;
  store_bytes : list GLubyte
}.

(** The calls Mesh.hpp and BufferObject issue, with their arguments as
    passed (for glGen* and glGetError: the value handed back). *)
Inductive GLCall :=
| GenBuffers (name : GLuint)
| BindBuffer (target : GLenum) (buffer : GLuint)
| BufferData (target : GLenum) (size : GLsizeiptr) (data : DataPtr) (usage : GLenum)
| BufferSubData (target : GLenum) (offset size : GLsizeiptr) (data : DataPtr)
| GenVertexArrays (name : GLuint)
| BindVertexArray (array : GLuint)
| EnableVertexAttribArray (index : GLuint)
| VertexAttribPointer (index : GLuint) (size : GLint) (type : GLenum)
    (normalized : GLboolean) (stride : GLsizei) (pointer : Z)
| DrawElementsInstanced (mode : GLenum) (count : GLsizei) (type : GLenum)
    (indices : Z) (instancecount : GLsizei)
| GetError (flag : GLenum).

(** Lines the Mesh writes to std::cerr. *)
Inductive Diagnostic :=
| Error_Mesh_Construction (err : GLenum).

(** The part of the process state the Mesh touches: the current OpenGL
    context and the std::cerr stream.  Object names are handed out from
    counters, so a generated name is never zero and never handed out twice;
    [gl_calls] has the most recent call last. *)
Record State := {
  gl_vertex_array_binding : GLuint;
  gl_array_buffer_binding : GLuint;
  gl_vertex_arrays : gmap Z VertexArrayObject;
  gl_buffers : gmap Z BufferStore;
  gl_next_buffer : positive;
  gl_next_vertex_array : positive;
  gl_error : GLenum;
  gl_calls : list GLCall;
  std_cerr : list Diagnostic
}.

Definition gl_init : State :=
  {| gl_vertex_array_binding := 0; gl_array_buffer_binding := 0;
     gl_vertex_arrays := ∅; gl_buffers := ∅;
     gl_next_buffer := 1; gl_next_vertex_array := 1;
     gl_error := GL_NO_ERROR; gl_calls := []; std_cerr := [] |}.

Definition set_vertex_array_binding (a : GLuint) (s : State) : State :=
  {| gl_vertex_array_binding := a;
     gl_array_buffer_binding := gl_array_buffer_binding s;
     gl_vertex_arrays := gl_vertex_arrays s; gl_buffers := gl_buffers s;
     gl_next_buffer := gl_next_buffer s;
     gl_next_vertex_array := gl_next_vertex_array s;
     gl_error := gl_error s; gl_calls := gl_calls s; std_cerr := std_cerr s |}.

Definition set_array_buffer_binding (b : GLuint) (s : State) : State :=
  {| gl_vertex_array_binding := gl_vertex_array_binding s;
     gl_array_buffer_binding := b;
     gl_vertex_arrays := gl_vertex_arrays s; gl_buffers := gl_buffers s;
     gl_next_buffer := gl_next_buffer s;
     gl_next_vertex_array := gl_next_vertex_array s;
     gl_error := gl_error s; gl_calls := gl_calls s; std_cerr := std_cerr s |}.

Definition set_vertex_arrays (v : gmap Z VertexArrayObject) (s : State) : State :=
  {| gl_vertex_array_binding := gl_vertex_array_binding s;
     gl_array_buffer_binding := gl_array_buffer_binding s;
     gl_vertex_arrays := v; gl_buffers := gl_buffers s;
     gl_next_buffer := gl_next_buffer s;
     gl_next_vertex_array := gl_next_vertex_array s;
     gl_error := gl_error s; gl_calls := gl_calls s; std_cerr := std_cerr s |}.

Definition set_buffers (b : gmap Z BufferStore) (s : State) : State :=
  {| gl_vertex_array_binding := gl_vertex_array_binding s;
     gl_array_buffer_binding := gl_array_buffer_binding s;
     gl_vertex_arrays := gl_vertex_arrays s; gl_buffers := b;
     gl_next_buffer := gl_next_buffer s;
     gl_next_vertex_array := gl_next_vertex_array s;
     gl_error := gl_error s; gl_calls := gl_calls s; std_cerr := std_cerr s |}.

Definition set_next_buffer (p : positive) (s : State) : State :=
  {| gl_vertex_array_binding := gl_vertex_array_binding s;
     gl_array_buffer_binding := gl_array_buffer_binding s;
     gl_vertex_arrays := gl_vertex_arrays s; gl_buffers := gl_buffers s;
     gl_next_buffer := p;
     gl_next_vertex_array := gl_next_vertex_array s;
     gl_error := gl_error s; gl_calls := gl_calls s; std_cerr := std_cerr s |}.

Definition set_next_vertex_array (p : positive) (s : State) : State :=
  {| gl_vertex_array_binding := gl_vertex_array_binding s;
     gl_array_buffer_binding := gl_array_buffer_binding s;
     gl_vertex_arrays := gl_vertex_arrays s; gl_buffers := gl_buffers s;
     gl_next_buffer := gl_next_buffer s;
     gl_next_vertex_array := p;
     gl_error := gl_error s; gl_calls := gl_calls s; std_cerr := std_cerr s |}.

Definition set_error (e : GLenum) (s : State) : State :=
  {| gl_vertex_array_binding := gl_vertex_array_binding s;
     gl_array_buffer_binding := gl_array_buffer_binding s;
     gl_vertex_arrays := gl_vertex_arrays s; gl_buffers := gl_buffers s;
     gl_next_buffer := gl_next_buffer s;
     gl_next_vertex_array := gl_next_vertex_array s;
     gl_error := e; gl_calls := gl_calls s; std_cerr := std_cerr s |}.

Definition log_call (c : GLCall) (s : State) : State :=
  {| gl_vertex_array_binding := gl_vertex_array_binding s;
     gl_array_buffer_binding := gl_array_buffer_binding s;
     gl_vertex_arrays := gl_vertex_arrays s; gl_buffers := gl_buffers s;
     gl_next_buffer := gl_next_buffer s;
     gl_next_vertex_array := gl_next_vertex_array s;
     gl_error := gl_error s; gl_calls := gl_calls s ++ [c];
     std_cerr := std_cerr s |}.

Definition log_cerr (d : Diagnostic) (s : State) : State :=
  {| gl_vertex_array_binding := gl_vertex_array_binding s;
     gl_array_buffer_binding := gl_array_buffer_binding s;
     gl_vertex_arrays := gl_vertex_arrays s; gl_buffers := gl_buffers s;
     gl_next_buffer := gl_next_buffer s;
     gl_next_vertex_array := gl_next_vertex_array s;
     gl_error := gl_error s; gl_calls := gl_calls s;
     std_cerr := std_cerr s ++ [d] |}.

(** The error flag keeps the first error until glGetError reads it. *)
Definition record_error (e : GLenum) (s : State) : State :=
  if gl_error s =? GL_NO_ERROR then set_error e s else s.

(** The vertex-array object of a name (objects never written are in their
    initial state; name 0 is the default vertex array). *)
Definition vertex_array (s : State) (name : GLuint) : VertexArrayObject :=
  default vao_init (gl_vertex_arrays s !! name).

Definition vertex_attrib (vao : VertexArrayObject) (index : GLuint) : VertexAttrib :=
  default attrib_init (vao_attribs vao !! index).

(** The element-array binding is part of the bound vertex-array object. *)
Definition element_array_buffer_binding (s : State) : GLuint :=
  vao_element_array_buffer (vertex_array s (gl_vertex_array_binding s)).

Definition update_bound_vertex_array
    (f : VertexArrayObject -> VertexArrayObject) (s : State) : State :=
  let a := gl_vertex_array_binding s in
  set_vertex_arrays (<[a := f (vertex_array s a)]> (gl_vertex_arrays s)) s.

Definition update_attrib (index : GLuint) (f : VertexAttrib -> VertexAttrib)
    (vao : VertexArrayObject) : VertexArrayObject :=
  {| vao_element_array_buffer := vao_element_array_buffer vao;
     vao_attribs := <[index := f (vertex_attrib vao index)]> (vao_attribs vao) |}.

(** The buffer bound to a target (0 for targets the model does not track). *)
Definition bound_buffer (target : GLenum) (s : State) : GLuint :=
  if target =? GL_ARRAY_BUFFER then gl_array_buffer_binding s
  else if target =? GL_ELEMENT_ARRAY_BUFFER then element_array_buffer_binding s
  else 0.

(** ** The monad of the embedding: state passing with failure *)

Inductive Result (A : Type) : Type :=
| Ok (a : A)
| OutOfBounds   (* a std::vector indexed outside its size *)
| Diverges.     (* a loop whose guard never becomes false *)
Arguments Ok {A} a.
Arguments OutOfBounds {A}.
Arguments Diverges {A}.

Definition M (A : Type) : Type := State -> Result (A * State).

#[global] Instance M_ret : MRet M := fun A a s => Ok (a, s).

#[global] Instance M_bind : MBind M := fun A B f c s =>
  match c s with
  | Ok (a, s') => f a s'
  | OutOfBounds => OutOfBounds
  | Diverges => Diverges
  end.

Definition out_of_bounds {A} : M A := fun _ => OutOfBounds.
Definition diverge {A} : M A := fun _ => Diverges.

(** [v[i]] on a std::vector. *)
Definition at_index {A} (v : list A) (i : Z) : M A :=
  match v !! Z.to_nat i with
  | Some x => mret x
  | None => out_of_bounds
  end.

(** [for (i = start; i < start + count; ++i) acc = body(i, acc)]. *)
Fixpoint for_loop {A} (count : nat) (i : Z) (body : Z -> A -> M A) (acc : A) : M A :=
  match count with
  | O => mret acc
  | S count' => acc' ← body i acc; for_loop count' (i + 1) body acc'
  end.

(** A call that hands nothing back: log it and apply its effect. *)
Definition gl_call (c : GLCall) (effect : State -> State) : M unit :=
  fun s => Ok (tt, effect (log_call c s)).

(** ** The OpenGL entry points Mesh.hpp and BufferObject consume *)

Definition glGenBuffers : M GLuint := fun s =>
  let name := Z.pos (gl_next_buffer s) in
  Ok (name, set_next_buffer (Pos.succ (gl_next_buffer s)) (log_call (GenBuffers name) s)).

Definition glGenVertexArrays : M GLuint := fun s =>
  let name := Z.pos (gl_next_vertex_array s) in
  Ok (name, set_next_vertex_array (Pos.succ (gl_next_vertex_array s))
              (log_call (GenVertexArrays name) s)).

Definition glBindVertexArray (array : GLuint) : M unit :=
  gl_call (BindVertexArray array) (set_vertex_array_binding array).

Definition glBindBuffer (target : GLenum) (buffer : GLuint) : M unit :=
  gl_call (BindBuffer target buffer) (fun s =>
    if target =? GL_ARRAY_BUFFER then set_array_buffer_binding buffer s
    else if target =? GL_ELEMENT_ARRAY_BUFFER then
      update_bound_vertex_array (fun vao =>
        {| vao_element_array_buffer := buffer; vao_attribs := vao_attribs vao |}) s
    else s).

Definition glBufferData (target : GLenum) (size : GLsizeiptr) (data : DataPtr)
    (usage : GLenum) : M unit :=
  gl_call (BufferData target size data usage) (fun s =>
    let b := bound_buffer target s in
    if b =? 0 then record_error GL_INVALID_OPERATION s
    else if size <? 0 then record_error GL_INVALID_VALUE s
    else set_buffers (<[b := {| store_size := size; store_usage := usage;
                                store_bytes := resize (Z.to_nat size) 0 data |}]>
                        (gl_buffers s)) s).

Definition glBufferSubData (target : GLenum) (offset size : GLsizeiptr)
    (data : DataPtr) : M unit :=
  gl_call (BufferSubData target offset size data) (fun s =>
    let b := bound_buffer target s in
    match gl_buffers s !! b with
    | None => record_error GL_INVALID_OPERATION s
    | Some st =>
        if (offset <? 0) || (size <? 0) || (store_size st <? offset + size)
        then record_error GL_INVALID_VALUE s
        else set_buffers
               (<[b := {| store_size := store_size st; store_usage := store_usage st;
                          store_bytes := take (Z.to_nat offset) (store_bytes st)
                                         ++ resize (Z.to_nat size) 0 data
                                         ++ drop (Z.to_nat (offset + size)) (store_bytes st) |}]>
                  (gl_buffers s)) s
    end).

Definition enable_attrib (a : VertexAttrib) : VertexAttrib :=
  {| attrib_enabled := true; attrib_size := attrib_size a;
     attrib_type := attrib_type a; attrib_normalized := attrib_normalized a;
     attrib_stride := attrib_stride a; attrib_pointer := attrib_pointer a;
     attrib_buffer := attrib_buffer a |}.

Definition point_attrib (size : GLint) (type : GLenum) (normalized : GLboolean)
    (stride : GLsizei) (pointer : Z) (buffer : GLuint) (a : VertexAttrib) : VertexAttrib :=
  {| attrib_enabled := attrib_enabled a; attrib_size := size;
     attrib_type := type; attrib_normalized := normalized;
     attrib_stride := stride; attrib_pointer := pointer;
     attrib_buffer := buffer |}.

Definition glEnableVertexAttribArray (index : GLuint) : M unit :=
  gl_call (EnableVertexAttribArray index)
    (update_bound_vertex_array (update_attrib index enable_attrib)).

(** glVertexAttribPointer records the format and captures the buffer bound
    to GL_ARRAY_BUFFER at the time of the call. *)
Definition glVertexAttribPointer (index : GLuint) (size : GLint) (type : GLenum)
    (normalized : GLboolean) (stride : GLsizei) (pointer : Z) : M unit :=
  gl_call (VertexAttribPointer index size type normalized stride pointer) (fun s =>
    update_bound_vertex_array
      (update_attrib index
         (point_attrib size type normalized stride pointer (gl_array_buffer_binding s)))
      s).

(** Drawing reads the context; rasterization is outside the model. *)
Definition glDrawElementsInstanced (mode : GLenum) (count : GLsizei) (type : GLenum)
    (indices : Z) (instancecount : GLsizei) : M unit :=
  gl_call (DrawElementsInstanced mode count type indices instancecount) (fun s => s).

Definition glGetError : M GLenum := fun s =>
  let flag := gl_error s in
  Ok (flag, set_error GL_NO_ERROR (log_call (GetError flag) s)).

Definition cerr (d : Diagnostic) : M unit := fun s => Ok (tt, log_cerr d s).

(** ** Collaborators of the Mesh that are declared in other headers *)

(** Modelled from the spec: VertexLayout.hpp is not among the sources.  The
    spec describes an ordered list of attribute descriptors (component
    count, component type, normalized flag, byte offset within a vertex) and
    either one shared stride or one stride per attribute; the field names are
    the ones Mesh.hpp reads. *)
Record Attribute := {
  size : GLint;
  type : GLenum;
  normalized : GLboolean;
  offset : GLsizei
}.

Record VertexLayout := {
  strides : list GLsizei;
  attributes : list Attribute
}.

(** Modelled from the spec: the containers the template constructors and
    sub-data overloads accept are any source of a contiguous byte range:
    [c_size] is size(), [c_sizeof_value_type] is sizeof(value_type) and
    [c_data] the bytes at data(). *)
Class Container (C : Type) := {
  c_size : C -> size_t;
  c_sizeof_value_type : size_t;
  c_data : C -> DataPtr
}.

(** Byte size of a container: length times element size. *)
Definition c_byte_size {C} `{Container C} (c : C) : Z :=
  Z.of_N (c_size c) * Z.of_N c_sizeof_value_type.

(** Modelled from the spec: BufferObject.hpp is not among the sources.  A
    BufferObject owns one buffer handle of a given target kind and knows its
    byte size. *)
Record BufferObject := {
  bo_target : GLenum;
  bo_handle : GLuint;
  bo_byte_size : Z;
  bo_usage : GLenum
}.

Module BufferObject.

(** Modelled from the spec: construction from a data pointer and a byte
    size allocates a buffer of the given kind and uploads the bytes with the
    given usage (generate a name, bind, upload, unbind). *)
Definition new (target : GLenum) (data : DataPtr) (byte_size : Z)
    (usage : GLenum) : M BufferObject :=
  handle ← glGenBuffers;
  glBindBuffer target handle;;
  glBufferData target byte_size data usage;;
  glBindBuffer target 0;;
  mret {| bo_target := target; bo_handle := handle;
          bo_byte_size := byte_size; bo_usage := usage |}.

(** Modelled from the spec: construction from a container derives the byte
    size as length times element size. *)
Definition new_container {C} `{Container C} (target : GLenum) (datastorage : C)
    (usage : GLenum) : M BufferObject :=
  new target (c_data datastorage) (c_byte_size datastorage) usage.

(** Modelled from the spec: bind makes the buffer the current one of its
    target kind. *)
Definition bind (bo : BufferObject) : M unit :=
  glBindBuffer (bo_target bo) (bo_handle bo).

(** Modelled from the spec: a sub-range update rewrites a byte range of the
    existing buffer in place; the object itself (handle, kind, byte size)
    stays as it is. *)
Definition bufferSubData (bo : BufferObject) (data : DataPtr)
    (byte_size byte_offset : GLsizeiptr) : M BufferObject :=
  glBindBuffer (bo_target bo) (bo_handle bo);;
  glBufferSubData (bo_target bo) byte_offset byte_size data;;
  glBindBuffer (bo_target bo) 0;;
  mret bo.

Definition bufferSubData_container {C} `{Container C} (bo : BufferObject)
    (datastorage : C) (byte_offset : GLsizeiptr) : M BufferObject :=
  bufferSubData bo (c_data datastorage) (c_byte_size datastorage) byte_offset.

Definition getByteSize (bo : BufferObject) : Z := bo_byte_size bo.

End BufferObject.

(** ** class Mesh *)

Record Mesh := {
  m_vbos : list BufferObject;
  m_ibo : BufferObject;
  m_va_handle : GLuint;
  m_vertex_descriptor : VertexLayout;
  m_indices_cnt : GLuint;
  m_index_type : GLenum;
  m_usage : GLenum;
  m_primitive_type : GLenum
}.

(** [for (unsigned int i = 0; i < bound; ++i)] against a size_t bound: when
    the bound does not fit 32 bits, [i] runs through all 2^32 values, wraps to
    0 before reaching the bound, and the guard stays true: the loop ends only
    if one of its rounds fails. *)
Definition unsigned_for_loop {A} (bound : nat) (body : Z -> A -> M A) (acc : A) : M A :=
  if 2 ^ 32 <=? Z.of_nat bound
  then for_loop (Z.to_nat (2 ^ 32)) 0 body acc ≫= fun _ => diverge
  else for_loop bound 0 body acc.

(** Number of rounds of the per-attribute loop: the attribute count cast
    to GLuint. *)
Definition attrib_count (vertex_descriptor : VertexLayout) : Z :=
  to_GLuint (Z.of_nat (length (attributes vertex_descriptor))).

(** Body of the per-attribute loop, the same text in both constructors
    (lines 205-217 and 275-287): the stride is the front one when there is
    exactly one and the [attrib_idx]th otherwise; the buffer bound is
    [m_vbos[attrib_idx]] in either case. *)
Definition attrib_body (vertex_descriptor : VertexLayout) (m_vbos : list BufferObject)
    (attrib_idx : Z) (_ : unit) : M unit :=
  attribute ← at_index (attributes vertex_descriptor) attrib_idx;
  attribute_stride ←
    (if Nat.eqb (length (strides vertex_descriptor)) 1
     then at_index (strides vertex_descriptor) 0
     else at_index (strides vertex_descriptor) attrib_idx);
  vbo ← at_index m_vbos attrib_idx;
  BufferObject.bind vbo;;
  glEnableVertexAttribArray attrib_idx;;
  glVertexAttribPointer attrib_idx (size attribute) (type attribute)
    (normalized attribute) attribute_stride (offset attribute).

(** The per-attribute loop (lines 203-218 and 273-288), with its GLuint
    counter. *)
Definition attrib_loop (vertex_descriptor : VertexLayout)
    (m_vbos : list BufferObject) : M unit :=
  for_loop (Z.to_nat (attrib_count vertex_descriptor)) 0
    (attrib_body vertex_descriptor m_vbos) tt.

(** The switch on [m_index_type] of the pointer constructor (lines 223-234):
    signed division of the GLsizeiptr byte size, cast to GLuint; without a
    matching case the counter keeps its initial value. *)
Definition indices_cnt_of_byte_size (m_index_type : GLenum)
    (index_data_byte_size : GLsizeiptr) (m_indices_cnt : GLuint) : GLuint :=
  if m_index_type =? GL_UNSIGNED_INT then to_GLuint (index_data_byte_size ÷ 4)
  else if m_index_type =? GL_UNSIGNED_SHORT then to_GLuint (index_data_byte_size ÷ 2)
  else if m_index_type =? GL_UNSIGNED_BYTE then to_GLuint (index_data_byte_size ÷ 1)
  else m_indices_cnt.

(** The switch of the container constructor (lines 292-305) on the GLuint
    [vi_size]. *)
Definition indices_cnt_of_vi_size (m_index_type : GLenum) (vi_size : GLuint)
    (m_indices_cnt : GLuint) : GLuint :=
  if m_index_type =? GL_UNSIGNED_INT then to_GLuint (vi_size / 4)
  else if m_index_type =? GL_UNSIGNED_SHORT then to_GLuint (vi_size / 2)
  else if m_index_type =? GL_UNSIGNED_BYTE then to_GLuint (vi_size / 1)
  else m_indices_cnt.

Definition report_construction_error : M unit :=
  err ← glGetError;
  if err =? GL_NO_ERROR then mret tt else cerr (Error_Mesh_Construction err).

(** Body of the vertex-buffer loop of the pointer constructor (lines
    191-193): [m_vbos.emplace_back] of a buffer made from [vertex_data[i]] and
    [vertex_data_byte_sizes[i]]; the size_t byte size is passed for a
    GLsizeiptr. *)
Definition emplace_vbo_pointer (vertex_data : list DataPtr)
    (vertex_data_byte_sizes : list size_t) (usage : GLenum)
    (i : Z) (m_vbos : list BufferObject) : M (list BufferObject) :=
  data ← at_index vertex_data i;
  byte_size ← at_index vertex_data_byte_sizes i;
  vbo ← BufferObject.new GL_ARRAY_BUFFER data (to_GLsizeiptr (Z.of_N byte_size)) usage;
  mret (m_vbos ++ [vbo]).

(** Body of the vertex-buffer loop of the container constructor (lines
    263-264). *)
Definition emplace_vbo_container {VertexContainer} `{Container VertexContainer}
    (vertex_data : list VertexContainer) (usage : GLenum)
    (i : Z) (m_vbos : list BufferObject) : M (list BufferObject) :=
  data ← at_index vertex_data i;
  vbo ← BufferObject.new_container GL_ARRAY_BUFFER data usage;
  mret (m_vbos ++ [vbo]).

(** Mesh constructor from data pointers and byte sizes (lines 174-241).
    Members are initialised in declaration order, so the index buffer is
    created first. *)
Definition Mesh_from_pointers (vertex_data : list DataPtr)
    (vertex_data_byte_sizes : list size_t) (index_data : DataPtr)
    (index_data_byte_size : GLsizeiptr) (vertex_descriptor : VertexLayout)
    (indices_type usage primitive_type : GLenum) : M Mesh :=
  ibo ← BufferObject.new GL_ELEMENT_ARRAY_BUFFER index_data index_data_byte_size usage;
  vbos ← unsigned_for_loop (length vertex_data)
    (emplace_vbo_pointer vertex_data vertex_data_byte_sizes usage) [];
  va_handle ← glGenVertexArrays;
  glBindVertexArray va_handle;;
  BufferObject.bind ibo;;
  attrib_loop vertex_descriptor vbos;;
  glBindVertexArray 0;;
  glBindBuffer GL_ARRAY_BUFFER 0;;
  glBindBuffer GL_ELEMENT_ARRAY_BUFFER 0;;
  report_construction_error;;
  mret {| m_vbos := vbos; m_ibo := ibo; m_va_handle := va_handle;
          m_vertex_descriptor := vertex_descriptor;
          m_indices_cnt := indices_cnt_of_byte_size indices_type index_data_byte_size 0;
          m_index_type := indices_type; m_usage := usage;
          m_primitive_type := primitive_type |}.

(** Mesh constructor from containers (lines 243-312). *)
Definition Mesh_from_containers {VertexContainer IndexContainer}
    `{Container VertexContainer} `{Container IndexContainer}
    (vertex_data : list VertexContainer) (index_data : IndexContainer)
    (vertex_descriptor : VertexLayout)
    (indices_type usage primitive_type : GLenum) : M Mesh :=
  ibo ← BufferObject.new_container GL_ELEMENT_ARRAY_BUFFER index_data usage;
  vbos ← unsigned_for_loop (length vertex_data)
    (emplace_vbo_container vertex_data usage) [];
  va_handle ← glGenVertexArrays;
  glBindVertexArray va_handle;;
  BufferObject.bind ibo;;
  attrib_loop vertex_descriptor vbos;;
  glBindVertexArray 0;;
  glBindBuffer GL_ARRAY_BUFFER 0;;
  let vi_size := to_GLuint (to_size_t (c_byte_size index_data)) in
  report_construction_error;;
  mret {| m_vbos := vbos; m_ibo := ibo; m_va_handle := va_handle;
          m_vertex_descriptor := vertex_descriptor;
          m_indices_cnt := indices_cnt_of_vi_size indices_type vi_size 0;
          m_index_type := indices_type; m_usage := usage;
          m_primitive_type := primitive_type |}.

(** The default arguments of both constructor declarations (lines 64-66 and
    78-80) and of draw (line 112). *)
Definition default_index_type : GLenum := GL_UNSIGNED_INT.
Definition default_usage : GLenum := GL_STATIC_DRAW.
Definition default_primitive_type : GLenum := GL_TRIANGLES.
Definition default_instance_cnt : GLsizei := 1.

Definition bindVertexArray (m : Mesh) : M unit :=
  glBindVertexArray (m_va_handle m).

(** draw (lines 112-117).  [m_indices_cnt] is a GLuint passed for the
    GLsizei count parameter; nullptr is the pointer value 0. *)
Definition draw (m : Mesh) (instance_cnt : GLsizei) : M unit :=
  glBindVertexArray (m_va_handle m);;
  glDrawElementsInstanced (m_primitive_type m) (to_GLsizei (m_indices_cnt m))
    (m_index_type m) 0 instance_cnt;;
  glBindVertexArray 0.

Definition draw_default (m : Mesh) : M unit := draw m default_instance_cnt.

Definition getVertexLayout (m : Mesh) : VertexLayout := m_vertex_descriptor m.
Definition getIndicesCount (m : Mesh) : GLuint := m_indices_cnt m.
Definition getIndexType (m : Mesh) : GLenum := m_index_type m.
Definition getPrimitiveType (m : Mesh) : GLenum := m_primitive_type m.

(** getVertexBufferByteSize (lines 139-146); the result type is the signed
    GLsizeiptr. *)
Definition getVertexBufferByteSize (m : Mesh) (vbo_idx : size_t) : GLsizeiptr :=
  if (vbo_idx <? N.of_nat (length (m_vbos m)))%N then
    match m_vbos m !! N.to_nat vbo_idx with
    | Some vbo => to_GLsizeiptr (BufferObject.getByteSize vbo)
    | None => 0
    end
  else 0.

Definition getIndexBufferByteSize (m : Mesh) : GLsizeiptr :=
  BufferObject.getByteSize (m_ibo m).

Definition getVbo (m : Mesh) : list BufferObject := m_vbos m.
Definition getIbo (m : Mesh) : BufferObject := m_ibo m.

(** The Mesh after a member call changed the buffer object behind
    [m_vbos[idx]] or [m_ibo]. *)
Definition with_vbo (m : Mesh) (idx : nat) (vbo : BufferObject) : Mesh :=
  {| m_vbos := <[idx := vbo]> (m_vbos m); m_ibo := m_ibo m;
     m_va_handle := m_va_handle m; m_vertex_descriptor := m_vertex_descriptor m;
     m_indices_cnt := m_indices_cnt m; m_index_type := m_index_type m;
     m_usage := m_usage m; m_primitive_type := m_primitive_type m |}.

Definition with_ibo (m : Mesh) (ibo : BufferObject) : Mesh :=
  {| m_vbos := m_vbos m; m_ibo := ibo;
     m_va_handle := m_va_handle m; m_vertex_descriptor := m_vertex_descriptor m;
     m_indices_cnt := m_indices_cnt m; m_index_type := m_index_type m;
     m_usage := m_usage m; m_primitive_type := m_primitive_type m |}.

(** bufferVertexSubData, container overload (lines 314-319). *)
Definition bufferVertexSubData_container {VertexContainer}
    `{Container VertexContainer} (m : Mesh) (vbo_idx : size_t)
    (vertices : VertexContainer) (byte_offset : GLsizeiptr) : M Mesh :=
  if (vbo_idx <? N.of_nat (length (m_vbos m)))%N then
    vbo ← at_index (m_vbos m) (Z.of_N vbo_idx);
    vbo' ← BufferObject.bufferSubData_container vbo vertices byte_offset;
    mret (with_vbo m (N.to_nat vbo_idx) vbo')
  else mret m.

(** bufferVertexSubData, pointer overload (lines 321-327). *)
Definition bufferVertexSubData (m : Mesh) (idx : size_t) (data : DataPtr)
    (byte_size byte_offset : GLsizeiptr) : M Mesh :=
  if (idx <? N.of_nat (length (m_vbos m)))%N then
    vbo ← at_index (m_vbos m) (Z.of_N idx);
    vbo' ← BufferObject.bufferSubData vbo data byte_size byte_offset;
    mret (with_vbo m (N.to_nat idx) vbo')
  else mret m.

(** bufferIndexSubData, container overload (lines 329-334). *)
Definition bufferIndexSubData_container {IndexContainer}
    `{Container IndexContainer} (m : Mesh) (indices : IndexContainer)
    (byte_offset : GLsizeiptr) : M Mesh :=
  ibo' ← BufferObject.bufferSubData_container (m_ibo m) indices byte_offset;
  mret (with_ibo m ibo').

(** bufferIndexSubData, pointer overload (lines 336-339). *)
Definition bufferIndexSubData (m : Mesh) (data : DataPtr)
    (byte_size byte_offset : GLsizeiptr) : M Mesh :=
  ibo' ← BufferObject.bufferSubData (m_ibo m) data byte_size byte_offset;
  mret (with_ibo m ibo').

(** Element size of the index types the constructors know. *)
Definition element_size (index_type : GLenum) : option Z :=
  if index_type =? GL_UNSIGNED_BYTE then Some 1
  else if index_type =? GL_UNSIGNED_SHORT then Some 2
  else if index_type =? GL_UNSIGNED_INT then Some 4
  else None.

(** std::vector of GLubyte, GLushort and GLuint as containers (little
    endian object representation). *)
Definition le_bytes (width : nat) (v : Z) : list GLubyte :=
  map (fun k => (v / 2 ^ (8 * Z.of_nat k)) mod 256) (seq 0 width).

Record vector_GLubyte := { ubytes : list Z }.
Record vector_GLushort := { ushorts : list Z }.
Record vector_GLuint := { uints : list Z }.

#[global] Instance vector_GLubyte_container : Container vector_GLubyte :=
  {| c_size v := N.of_nat (length (ubytes v)); c_sizeof_value_type := 1%N;
     c_data v := concat (map (le_bytes 1) (ubytes v)) |}.

#[global] Instance vector_GLushort_container : Container vector_GLushort :=
  {| c_size v := N.of_nat (length (ushorts v)); c_sizeof_value_type := 2%N;
     c_data v := concat (map (le_bytes 2) (ushorts v)) |}.

#[global] Instance vector_GLuint_container : Container vector_GLuint :=
  {| c_size v := N.of_nat (length (uints v)); c_sizeof_value_type := 4%N;
     c_data v := concat (map (le_bytes 4) (uints v)) |}.

(** ** Constructor calls

    A constructor call names one of the two forms and gives the trailing
    arguments it does not leave to their defaults (lines 64-66, 78-80). *)
Inductive DefaultedArgs :=
| NoneGiven
| IndexTypeGiven (index_type : GLenum)
| UsageGiven (index_type usage : GLenum)
| AllGiven (index_type usage primitive_type : GLenum).

Definition index_type_arg (d : DefaultedArgs) : GLenum :=
  match d with
  | NoneGiven => default_index_type
  | IndexTypeGiven t | UsageGiven t _ | AllGiven t _ _ => t
  end.

Definition usage_arg (d : DefaultedArgs) : GLenum :=
  match d with
  | NoneGiven | IndexTypeGiven _ => default_usage
  | UsageGiven _ u | AllGiven _ u _ => u
  end.

Definition primitive_type_arg (d : DefaultedArgs) : GLenum :=
  match d with
  | NoneGiven | IndexTypeGiven _ | UsageGiven _ _ => default_primitive_type
  | AllGiven _ _ p => p
  end.

Inductive Construction :=
| FromPointers (vertex_data : list DataPtr) (vertex_data_byte_sizes : list size_t)
    (index_data : DataPtr) (index_data_byte_size : GLsizeiptr)
    (vertex_descriptor : VertexLayout) (rest : DefaultedArgs)
| FromContainers (VertexContainer IndexContainer : Type)
    (VC : Container VertexContainer) (IC : Container IndexContainer)
    (vertex_data : list VertexContainer) (index_data : IndexContainer)
    (vertex_descriptor : VertexLayout) (rest : DefaultedArgs).

Definition construct (c : Construction) : M Mesh :=
  match c with
  | FromPointers vertex_data vertex_data_byte_sizes index_data index_data_byte_size
      vertex_descriptor rest =>
      Mesh_from_pointers vertex_data vertex_data_byte_sizes index_data
        index_data_byte_size vertex_descriptor
        (index_type_arg rest) (usage_arg rest) (primitive_type_arg rest)
  | FromContainers _ _ _ _ vertex_data index_data vertex_descriptor rest =>
      Mesh_from_containers vertex_data index_data vertex_descriptor
        (index_type_arg rest) (usage_arg rest) (primitive_type_arg rest)
  end.

(** What a constructor call supplies. *)
Definition rest_args (c : Construction) : DefaultedArgs :=
  match c with
  | FromPointers _ _ _ _ _ rest => rest
  | FromContainers _ _ _ _ _ _ _ rest => rest
  end.

Definition supplied_layout (c : Construction) : VertexLayout :=
  match c with
  | FromPointers _ _ _ _ vertex_descriptor _ => vertex_descriptor
  | FromContainers _ _ _ _ _ _ vertex_descriptor _ => vertex_descriptor
  end.

Definition supplied_vertex_buffers (c : Construction) : nat :=
  match c with
  | FromPointers vertex_data _ _ _ _ _ => length vertex_data
  | FromContainers _ _ _ _ vertex_data _ _ _ => length vertex_data
  end.

(** Byte size supplied for the [i]th vertex buffer: the [i]th entry of the
    byte-size list, or length times element size of the [i]th container. *)
Definition supplied_vertex_byte_size (c : Construction) (i : nat) : option Z :=
  match c with
  | FromPointers _ vertex_data_byte_sizes _ _ _ _ =>
      Z.of_N <$> vertex_data_byte_sizes !! i
  | FromContainers _ _ _ _ vertex_data _ _ _ => c_byte_size <$> vertex_data !! i
  end.

(** The stride the loop passes for attribute [i]. *)
Definition stride_of (vertex_descriptor : VertexLayout) (i : nat) : option GLsizei :=
  if Nat.eqb (length (strides vertex_descriptor)) 1
  then strides vertex_descriptor !! 0%nat
  else strides vertex_descriptor !! i.

(** The buffer attribute [index] of vertex array [va] reads from. *)
Definition wired_buffer (s : State) (va : GLuint) (index : Z) : GLuint :=
  attrib_buffer (vertex_attrib (vertex_array s va) index).

(** The fields fixed by construction: counts, types, layout and handles. *)
Definition structural_fields (m : Mesh) :=
  (m_indices_cnt m, m_index_type m, m_primitive_type m, m_vertex_descriptor m,
   m_va_handle m, bo_handle <$> m_vbos m, bo_handle (m_ibo m)).

(** Byte size of the index data a constructor call supplies. *)
Definition supplied_index_byte_size (c : Construction) : Z :=
  match c with
  | FromPointers _ _ _ index_data_byte_size _ _ => index_data_byte_size
  | FromContainers _ _ _ _ _ index_data _ _ => c_byte_size index_data
  end.

(** The indices count the constructor of the call computes. *)
Definition computed_indices_cnt (c : Construction) : GLuint :=
  match c with
  | FromPointers _ _ _ index_data_byte_size _ rest =>
      indices_cnt_of_byte_size (index_type_arg rest) index_data_byte_size 0
  | FromContainers _ _ _ _ _ index_data _ rest =>
      indices_cnt_of_vi_size (index_type_arg rest)
        (to_GLuint (to_size_t (c_byte_size index_data))) 0
  end.

(** Two states whose vertex-array objects record the same attributes. *)
Definition same_attribs (s s' : State) : Prop :=
  forall a, vao_attribs (vertex_array s' a) = vao_attribs (vertex_array s a).

(** The context after one round of the loop for attribute [j], when
    [m_vbos[j]] is an array buffer with handle [h]. *)
Definition wire_attrib (j : Z) (attribute : Attribute) (stride : GLsizei)
    (h : GLuint) (s : State) : State :=
  let s1 := set_array_buffer_binding h (log_call (BindBuffer GL_ARRAY_BUFFER h) s) in
  let s2 := update_bound_vertex_array (update_attrib j enable_attrib)
              (log_call (EnableVertexAttribArray j) s1) in
  update_bound_vertex_array
    (update_attrib j
       (point_attrib (size attribute) (type attribute) (normalized attribute)
          stride (offset attribute) h))
    (log_call (VertexAttribPointer j (size attribute) (type attribute)
                 (normalized attribute) stride (offset attribute)) s2).

(** What attribute [j] of vertex array [va] records in state [s] once the
    loop has wired it: it is enabled and reads from [vbos[j]] with the stride
    of the loop. *)
Definition wired (vertex_descriptor : VertexLayout) (vbos : list BufferObject)
    (s : State) (va : GLuint) (j : Z) : Prop :=
  exists vbo stride,
    vbos !! Z.to_nat j = Some vbo /\
    stride_of vertex_descriptor (Z.to_nat j) = Some stride /\
    wired_buffer s va j = bo_handle vbo /\
    attrib_stride (vertex_attrib (vertex_array s va) j) = stride /\
    attrib_enabled (vertex_attrib (vertex_array s va) j) = true.

(** A run that returns. *)
Definition succeeds {A} (r : Result (A * State)) : Prop :=
  exists a s', r = Ok (a, s').

(** The pointer constructor reads [vertex_data_byte_sizes[i]] for every
    vertex buffer. *)
Definition byte_sizes_cover (c : Construction) : Prop :=
  match c with
  | FromPointers vertex_data vertex_data_byte_sizes _ _ _ _ =>
      (length vertex_data <= length vertex_data_byte_sizes)%nat
  | FromContainers _ _ _ _ _ _ _ _ => True
  end.

(** ** Sample constructor calls *)

(** The interleaved layout of a textured quad: one stride of 20 bytes, a
    position of three floats and a texture coordinate of two. *)
Definition quad_layout : VertexLayout :=
  {| strides := [20];
     attributes := [ {| size := 3; type := GL_FLOAT; normalized := false; offset := 0 |};
                     {| size := 2; type := GL_FLOAT; normalized := false; offset := 12 |} ] |}.

(** Pointer form: two vertex buffers of 4 bytes, 5 bytes of index data,
    32-bit indices by default. *)
Definition five_byte_call : Construction :=
  FromPointers [[1; 2; 3; 4]; [5; 6; 7; 8]] [4%N; 4%N] [0; 0; 0; 0; 1] 5
    quad_layout NoneGiven.

(** Container form with the signed GL_INT as index type. *)
Definition int_index_call : Construction :=
  FromContainers vector_GLuint vector_GLuint _ _
    [ {| uints := [1; 2; 3] |}; {| uints := [4; 5; 6] |} ] {| uints := [0; 1; 2] |}
    quad_layout (IndexTypeGiven 0x1404).

(** A layout of positions only: one stride, one attribute. *)
Definition position_layout : VertexLayout :=
  {| strides := [12];
     attributes := [ {| size := 3; type := GL_FLOAT; normalized := false; offset := 0 |} ] |}.

(** Pointer form: one vertex buffer whose byte size is given as the largest
    size_t, three 8-bit indices. *)
Definition size_max_call : Construction :=
  FromPointers [[1; 2; 3; 4]] [18446744073709551615%N] [0; 1; 2] 3
    position_layout (IndexTypeGiven GL_UNSIGNED_BYTE).

(** Non-interleaved layout: a stride and a vertex buffer per attribute. *)
Definition split_layout : VertexLayout :=
  {| strides := [12; 8];
     attributes := [ {| size := 3; type := GL_FLOAT; normalized := false; offset := 0 |};
                     {| size := 2; type := GL_FLOAT; normalized := false; offset := 0 |} ] |}.

(** Pointer form with the non-interleaved layout and ten 16-bit indices. *)
Definition split_call : Construction :=
  FromPointers [[1; 2; 3; 4]; [5; 6; 7; 8]] [4%N; 4%N] (repeat 0 20) 20
    split_layout (IndexTypeGiven GL_UNSIGNED_SHORT).

(** Pointer form with 2^31 bytes of 8-bit indices. *)
Definition two_gib_index_call : Construction :=
  FromPointers [[1; 2; 3; 4]] [4%N] (repeat 0 (Z.to_nat (2 ^ 31))) (2 ^ 31)
    position_layout (IndexTypeGiven GL_UNSIGNED_BYTE).

(** A layout with one attribute and no stride at all. *)
Definition no_stride_layout : VertexLayout :=
  {| strides := [];
     attributes := [ {| size := 3; type := GL_FLOAT; normalized := false; offset := 0 |} ] |}.

Definition no_stride_call : Construction :=
  FromContainers vector_GLuint vector_GLuint _ _
    [ {| uints := [1; 2; 3] |} ] {| uints := [0; 1; 2] |}
    no_stride_layout NoneGiven.

(** ** Frames of the constructors *)

(** Every successful run of [c] relates the state before to the state
    after by [R]. *)
Definition preserves {A} (R : State -> State -> Prop) (c : M A) : Prop :=
  forall s a s', c s = Ok (a, s') -> R s s'.

(** Neither the attributes recorded in any vertex-array object nor
    std::cerr change. *)
Definition quiet (s s' : State) : Prop :=
  same_attribs s s' /\ std_cerr s' = std_cerr s.

(** The state [s'] the constructors end in, seen from the state [s1] after
    the per-attribute loop: bindings and error flag cleared, every named
    vertex-array object as the loop left it, at most one line on std::cerr. *)
Definition cleared (s1 s' : State) : Prop :=
  gl_vertex_array_binding s' = 0 /\
  gl_array_buffer_binding s' = 0 /\
  gl_error s' = GL_NO_ERROR /\
  (forall a, a <> 0 -> vertex_array s' a = vertex_array s1 a) /\
  same_attribs s1 s' /\
  (std_cerr s' = std_cerr s1 \/
   exists err, err <> GL_NO_ERROR /\
     std_cerr s' = std_cerr s1 ++ [Error_Mesh_Construction err]).

(** Whether a constructor call is of the pointer form. *)
Definition pointer_form (c : Construction) : bool :=
  match c with
  | FromPointers _ _ _ _ _ _ => true
  | FromContainers _ _ _ _ _ _ _ _ => false
  end.

(** The interleaved quad of one vertex buffer: 80 bytes of vertices for two
    attributes, six 32-bit indices. *)
Definition single_vbo_quad_call : Construction :=
  FromPointers [repeat 0 80] [80%N] (repeat 0 24) 24 quad_layout NoneGiven.

(** Attribute [j] of [vao'] is attribute [j] of [vao], enabled and pointed
    at [vbos[j]] with the format of the layout's attribute [j]. *)
Definition described (vertex_descriptor : VertexLayout) (vbos : list BufferObject)
    (vao vao' : VertexArrayObject) (j : Z) : Prop :=
  exists attribute stride vbo,
    attributes vertex_descriptor !! Z.to_nat j = Some attribute /\
    stride_of vertex_descriptor (Z.to_nat j) = Some stride /\
    vbos !! Z.to_nat j = Some vbo /\
    vertex_attrib vao' j
    = point_attrib (size attribute) (type attribute) (normalized attribute)
        stride (offset attribute) (bo_handle vbo)
        (enable_attrib (vertex_attrib vao j)).

(** * Properties *)

(** ** The monad *)

Lemma bind_Ok_inv {A B} (c : M A) (f : A -> M B) s r :
  (c ≫= f) s = Ok r -> exists a s1, c s = Ok (a, s1) /\ f a s1 = Ok r.
Proof.
  unfold mbind, M_bind.
  destruct (c s) as [[a s1]| |]; [eauto | discriminate | discriminate].
Qed.

Lemma bind_Ok {A B} (c : M A) (f : A -> M B) s a s1 :
  c s = Ok (a, s1) -> (c ≫= f) s = f a s1.
Proof. intros H. unfold mbind, M_bind. now rewrite H. Qed.

Lemma mret_Ok_inv {A} (a b : A) (s s' : State) :
  (mret a : M A) s = Ok (b, s') -> b = a /\ s' = s.
Proof. unfold mret, M_ret. intros H. now inversion H. Qed.

Lemma at_index_Ok_inv {A} (v : list A) i s x s' :
  at_index v i s = Ok (x, s') -> v !! Z.to_nat i = Some x /\ s' = s.
Proof.
  unfold at_index. destruct (v !! Z.to_nat i) as [y|]; [|discriminate].
  intros H. apply mret_Ok_inv in H as [-> ->]. auto.
Qed.

Lemma at_index_lookup {A} (v : list A) i x s :
  v !! Z.to_nat i = Some x -> at_index v i s = Ok (x, s).
Proof. unfold at_index. now intros ->. Qed.

(** Peel the first action off a successful run of a bind. *)
Tactic Notation "inv_bind" hyp(H) "as" ident(a) ident(s) ident(Hc) :=
  apply bind_Ok_inv in H; destruct H as (a & s & Hc & H).

(** ** Drawing *)

Lemma draw_run (m : Mesh) (instance_cnt : GLsizei) (s : State) :
  draw m instance_cnt s =
  Ok (tt,
      set_vertex_array_binding 0
        (log_call (BindVertexArray 0)
           (log_call (DrawElementsInstanced (m_primitive_type m)
                        (to_GLsizei (m_indices_cnt m)) (m_index_type m) 0 instance_cnt)
              (set_vertex_array_binding (m_va_handle m)
                 (log_call (BindVertexArray (m_va_handle m)) s))))).
Proof. reflexivity. Qed.

(** C4, as amended: after draw(n) the vertex-array binding is zero and the
    array-buffer binding is the one from before the call (draw issues no
    glBindBuffer), so it is zero exactly when it was zero before. *)
Theorem draw_bindings (m : Mesh) (n : GLsizei) (s : State) :
  exists s', draw m n s = Ok (tt, s') /\
    gl_vertex_array_binding s' = 0 /\
    gl_array_buffer_binding s' = gl_array_buffer_binding s.
Proof. eexists. rewrite draw_run. repeat split. Qed.

Lemma to_GLsizei_of_GLuint cnt :
  0 <= cnt < 2 ^ 32 ->
  to_GLsizei cnt = if cnt <? 2 ^ 31 then cnt else cnt - 2 ^ 32.
Proof.
  intros H. unfold to_GLsizei. destruct (Z.ltb_spec cnt (2 ^ 31)).
  - rewrite Z.mod_small by lia. lia.
  - replace (cnt + 2 ^ 31) with (cnt - 2 ^ 31 + 1 * 2 ^ 32) by lia.
    rewrite Z.mod_add by lia. rewrite Z.mod_small by lia. lia.
Qed.

(** C6, as amended: draw(instance_cnt) is glBindVertexArray on the Mesh's
    vertex array, then one glDrawElementsInstanced, then glBindVertexArray(0),
    each acting on the context the one before left: the Mesh's vertex array is
    the bound one when the draw call is issued and zero is bound at the end,
    and nothing else is called.  The draw call takes the stored primitive
    type, the stored index type, a null index pointer, the given instance
    count, and as count the stored indices count converted to the signed
    GLsizei: the stored count itself below 2^31, the stored count less 2^32
    from 2^31 on. *)
Theorem draw_binds_draws_unbinds (m : Mesh) (instance_cnt : GLsizei) (s : State)
    (Hstored : 0 <= getIndicesCount m < 2 ^ 32) :
  let count := if getIndicesCount m <? 2 ^ 31
               then getIndicesCount m else getIndicesCount m - 2 ^ 32 in
  exists s1 s2 s3,
    glBindVertexArray (m_va_handle m) s = Ok (tt, s1) /\
    glDrawElementsInstanced (getPrimitiveType m) count (getIndexType m) 0
      instance_cnt s1 = Ok (tt, s2) /\
    glBindVertexArray 0 s2 = Ok (tt, s3) /\
    draw m instance_cnt s = Ok (tt, s3) /\
    gl_vertex_array_binding s1 = m_va_handle m /\
    gl_vertex_array_binding s2 = m_va_handle m /\
    gl_vertex_array_binding s3 = 0 /\
    gl_calls s3 = gl_calls s ++
      [BindVertexArray (m_va_handle m);
       DrawElementsInstanced (getPrimitiveType m) count (getIndexType m) 0 instance_cnt;
       BindVertexArray 0].
Proof.
  cbn zeta. unfold getIndicesCount, getPrimitiveType, getIndexType in *.
  eexists _, _, _.
  split; [reflexivity|]. split; [reflexivity|]. split; [reflexivity|].
  split; [rewrite draw_run, (to_GLsizei_of_GLuint _ Hstored); reflexivity|].
  split; [reflexivity|]. split; [reflexivity|]. split; [reflexivity|].
  cbn. now rewrite <- !app_assoc.
Qed.

Lemma draw_binds_draws_unbinds_witness :
  exists m s' s3, construct five_byte_call gl_init = Ok (m, s') /\
    draw m 1 s' = Ok (tt, s3) /\
    gl_vertex_array_binding s3 = 0 /\
    gl_calls s3 = gl_calls s' ++
      [BindVertexArray (m_va_handle m);
       DrawElementsInstanced GL_TRIANGLES 1 GL_UNSIGNED_INT 0 1;
       BindVertexArray 0].
Proof.
  destruct (construct five_byte_call gl_init) as [[m s']| |] eqn:Hc;
    [|vm_compute in Hc; discriminate..].
  assert (Hm : getIndicesCount m = 1 /\ getPrimitiveType m = GL_TRIANGLES
               /\ getIndexType m = GL_UNSIGNED_INT).
  { vm_compute in Hc. injection Hc as <- _. repeat split. }
  destruct Hm as (Hcnt & Hprim & Htype).
  assert (Hstored : 0 <= getIndicesCount m < 2 ^ 32) by (rewrite Hcnt; lia).
  destruct (draw_binds_draws_unbinds m 1 s' Hstored)
    as (s1 & s2 & s3 & _ & _ & _ & Hdraw & _ & _ & Hva & Hlog).
  rewrite Hcnt, Hprim, Htype in Hlog.
  exists m, s', s3. split; [reflexivity|]. split; [exact Hdraw|].
  split; [exact Hva|exact Hlog].
Defined.

(** ** Partial updates *)

(** C5: with vbo_idx at or beyond the number of vertex buffers, both
    overloads of bufferVertexSubData return without a call: the Mesh, every
    buffer store, the error flag and the call log are as before. *)
Theorem bufferVertexSubData_out_of_range (m : Mesh) (vbo_idx : size_t) (s : State)
    (Hrange : (N.of_nat (length (m_vbos m)) <= vbo_idx)%N) :
  (forall data byte_size byte_offset,
     bufferVertexSubData m vbo_idx data byte_size byte_offset s = Ok (m, s)) /\
  (forall VertexContainer (VC : Container VertexContainer)
          (vertices : VertexContainer) byte_offset,
     bufferVertexSubData_container m vbo_idx vertices byte_offset s = Ok (m, s)).
Proof.
  apply N.ltb_ge in Hrange.
  split; intros; unfold bufferVertexSubData, bufferVertexSubData_container;
    now rewrite Hrange.
Qed.

Lemma BufferObject_bufferSubData_run bo data byte_size byte_offset s :
  exists s', BufferObject.bufferSubData bo data byte_size byte_offset s = Ok (bo, s').
Proof. eexists. reflexivity. Qed.

Lemma with_vbo_same m i vbo : m_vbos m !! i = Some vbo -> with_vbo m i vbo = m.
Proof.
  intros H. unfold with_vbo. rewrite list_insert_id by exact H. now destruct m.
Qed.

Lemma with_ibo_same m : with_ibo m (m_ibo m) = m.
Proof. now destruct m. Qed.

Lemma bufferVertexSubData_run m idx data byte_size byte_offset s :
  exists s', bufferVertexSubData m idx data byte_size byte_offset s = Ok (m, s').
Proof.
  unfold bufferVertexSubData.
  destruct (idx <? N.of_nat (length (m_vbos m)))%N eqn:Hlt; [|now eexists].
  apply N.ltb_lt in Hlt.
  destruct (lookup_lt_is_Some_2 (m_vbos m) (N.to_nat idx)) as [vbo Hvbo]; [lia|].
  destruct (BufferObject_bufferSubData_run vbo data byte_size byte_offset s) as [s' Hs'].
  exists s'.
  rewrite (bind_Ok _ _ s vbo s) by (apply at_index_lookup; now replace (Z.to_nat (Z.of_N idx)) with (N.to_nat idx) by lia).
  rewrite (bind_Ok _ _ s vbo s') by exact Hs'.
  unfold mret, M_ret. now rewrite with_vbo_same.
Qed.

Lemma bufferIndexSubData_run m data byte_size byte_offset s :
  exists s', bufferIndexSubData m data byte_size byte_offset s = Ok (m, s').
Proof.
  unfold bufferIndexSubData.
  destruct (BufferObject_bufferSubData_run (m_ibo m) data byte_size byte_offset s)
    as [s' Hs'].
  exists s'. rewrite (bind_Ok _ _ s (m_ibo m) s') by exact Hs'.
  unfold mret, M_ret. now rewrite with_ibo_same.
Qed.

(** C8: every overload of bufferVertexSubData and bufferIndexSubData returns
    a Mesh with the same indices count, index type, primitive type, vertex
    layout, vertex-array handle and buffer handles as before the call. *)
Theorem subdata_keeps_structure (m : Mesh) (s : State) :
  (forall idx data byte_size byte_offset, exists m' s',
     bufferVertexSubData m idx data byte_size byte_offset s = Ok (m', s') /\
     structural_fields m' = structural_fields m) /\
  (forall VertexContainer (VC : Container VertexContainer) idx
          (vertices : VertexContainer) byte_offset, exists m' s',
     bufferVertexSubData_container m idx vertices byte_offset s = Ok (m', s') /\
     structural_fields m' = structural_fields m) /\
  (forall data byte_size byte_offset, exists m' s',
     bufferIndexSubData m data byte_size byte_offset s = Ok (m', s') /\
     structural_fields m' = structural_fields m) /\
  (forall IndexContainer (IC : Container IndexContainer)
          (indices : IndexContainer) byte_offset, exists m' s',
     bufferIndexSubData_container m indices byte_offset s = Ok (m', s') /\
     structural_fields m' = structural_fields m).
Proof.
  repeat split; intros.
  - destruct (bufferVertexSubData_run m idx data byte_size byte_offset s) as [s' H].
    now exists m, s'.
  - destruct (bufferVertexSubData_run m idx (c_data vertices) (c_byte_size vertices)
                byte_offset s) as [s' H].
    now exists m, s'.
  - destruct (bufferIndexSubData_run m data byte_size byte_offset s) as [s' H].
    now exists m, s'.
  - destruct (bufferIndexSubData_run m (c_data indices) (c_byte_size indices)
                byte_offset s) as [s' H].
    now exists m, s'.
Qed.

(** ** How the calls of the constructors act on the context *)

Lemma same_attribs_refl s : same_attribs s s.
Proof. now intros a. Qed.

Lemma same_attribs_trans s1 s2 s3 :
  same_attribs s1 s2 -> same_attribs s2 s3 -> same_attribs s1 s3.
Proof. intros H12 H23 a. now rewrite H23, H12. Qed.

Lemma vertex_array_update_bound f s :
  vertex_array (update_bound_vertex_array f s) (gl_vertex_array_binding s)
  = f (vertex_array s (gl_vertex_array_binding s)).
Proof.
  unfold update_bound_vertex_array, vertex_array at 1. cbn.
  now rewrite lookup_insert_eq.
Qed.

Lemma vertex_array_update_bound_ne f s a :
  a <> gl_vertex_array_binding s ->
  vertex_array (update_bound_vertex_array f s) a = vertex_array s a.
Proof.
  intros Hne. unfold update_bound_vertex_array, vertex_array. cbn.
  now rewrite lookup_insert_ne.
Qed.

Lemma vertex_attrib_update_eq j f vao :
  vertex_attrib (update_attrib j f vao) j = f (vertex_attrib vao j).
Proof. unfold update_attrib, vertex_attrib at 1. cbn. now rewrite lookup_insert_eq. Qed.

Lemma vertex_attrib_update_ne j j' f vao :
  j <> j' -> vertex_attrib (update_attrib j f vao) j' = vertex_attrib vao j'.
Proof.
  intros Hne. unfold update_attrib, vertex_attrib. cbn. now rewrite lookup_insert_ne.
Qed.

Lemma glBindVertexArray_inv a s u s' :
  glBindVertexArray a s = Ok (u, s') ->
  gl_vertex_array_binding s' = a /\
  gl_array_buffer_binding s' = gl_array_buffer_binding s /\
  same_attribs s s'.
Proof. intros H. inversion H; subst. repeat split. Qed.

Lemma glBindBuffer_inv target b s u s' :
  glBindBuffer target b s = Ok (u, s') ->
  gl_vertex_array_binding s' = gl_vertex_array_binding s /\
  same_attribs s s' /\
  (target = GL_ARRAY_BUFFER ->
   gl_array_buffer_binding s' = b /\ gl_vertex_arrays s' = gl_vertex_arrays s).
Proof.
  intros H. unfold glBindBuffer, gl_call in H. inversion H; subst; clear H.
  destruct (target =? GL_ARRAY_BUFFER) eqn:Ha.
  - repeat split.
  - destruct (target =? GL_ELEMENT_ARRAY_BUFFER) eqn:He.
    + split; [reflexivity|]. split.
      * intros a.
        destruct (decide (a = gl_vertex_array_binding s)) as [->|Hne].
        -- now rewrite (vertex_array_update_bound _ (log_call _ s)).
        -- now rewrite (vertex_array_update_bound_ne _ (log_call _ s)).
      * intros ->. discriminate.
    + split; [reflexivity|]. split; [now intros a|]. intros ->. discriminate.
Qed.

Lemma report_construction_error_inv s u s' :
  report_construction_error s = Ok (u, s') ->
  gl_vertex_array_binding s' = gl_vertex_array_binding s /\
  gl_array_buffer_binding s' = gl_array_buffer_binding s /\
  same_attribs s s'.
Proof.
  unfold report_construction_error. intros H. inv_bind H as err s1 Hc.
  inversion Hc; subst; clear Hc.
  destruct (gl_error s =? GL_NO_ERROR); inversion H; subst; repeat split.
Qed.

Lemma BufferObject_new_inv target data byte_size usage s bo s' :
  BufferObject.new target data byte_size usage s = Ok (bo, s') ->
  bo_target bo = target /\ bo_byte_size bo = byte_size /\
  bo_handle bo = Z.pos (gl_next_buffer s).
Proof. intros H. inversion H; subst. repeat split. Qed.

(** ** The loops of the constructors *)

(** A loop that appends one element per round. *)
Lemma for_loop_append {B} (P : Z -> B -> Prop) (body : Z -> list B -> M (list B)) :
  (forall i acc s acc' s', body i acc s = Ok (acc', s') ->
     exists b, acc' = acc ++ [b] /\ P i b) ->
  forall n i acc s r s', for_loop n i body acc s = Ok (r, s') ->
    exists l, r = acc ++ l /\ length l = n /\
      forall k b, l !! k = Some b -> P (i + Z.of_nat k) b.
Proof.
  intros Hbody. induction n as [|n IH]; intros i acc s r s' H; cbn in H.
  - apply mret_Ok_inv in H as [-> _]. exists []. rewrite app_nil_r.
    repeat split. intros k b Hk. now rewrite lookup_nil in Hk.
  - inv_bind H as acc1 s1 Hc. apply Hbody in Hc as (b & -> & Hb).
    apply IH in H as (l & -> & Hlen & Hl).
    exists (b :: l). rewrite <- app_assoc. cbn. repeat split; [now f_equal|].
    intros [|k] b' Hk; cbn in Hk.
    + inversion Hk; subst. now rewrite Z.add_0_r.
    + apply Hl in Hk. now replace (i + Z.of_nat (S k)) with (i + 1 + Z.of_nat k) by lia.
Qed.

Lemma unsigned_for_loop_Ok_inv {A} bound (body : Z -> A -> M A) acc s r :
  unsigned_for_loop bound body acc s = Ok r ->
  Z.of_nat bound < 2 ^ 32 /\ for_loop bound 0 body acc s = Ok r.
Proof.
  unfold unsigned_for_loop. destruct (2 ^ 32 <=? Z.of_nat bound) eqn:Hb.
  - intros H. apply bind_Ok_inv in H as (a & s1 & _ & H). discriminate.
  - apply Z.leb_gt in Hb. auto.
Qed.

Lemma attrib_loop_unfold vertex_descriptor vbos :
  attrib_loop vertex_descriptor vbos
  = for_loop (Z.to_nat (attrib_count vertex_descriptor)) 0
      (attrib_body vertex_descriptor vbos) tt.
Proof. reflexivity. Qed.

Lemma stride_lookup_inv vertex_descriptor j s stride s' :
  (if Nat.eqb (length (strides vertex_descriptor)) 1
   then at_index (strides vertex_descriptor) 0
   else at_index (strides vertex_descriptor) j) s = Ok (stride, s') ->
  stride_of vertex_descriptor (Z.to_nat j) = Some stride /\ s' = s.
Proof.
  unfold stride_of. destruct (Nat.eqb _ 1); intros H;
    apply at_index_Ok_inv in H as [H ->]; auto.
Qed.

Lemma attrib_body_run vertex_descriptor vbos j attribute stride vbo s :
  attributes vertex_descriptor !! Z.to_nat j = Some attribute ->
  stride_of vertex_descriptor (Z.to_nat j) = Some stride ->
  vbos !! Z.to_nat j = Some vbo ->
  bo_target vbo = GL_ARRAY_BUFFER ->
  attrib_body vertex_descriptor vbos j tt s
  = Ok (tt, wire_attrib j attribute stride (bo_handle vbo) s).
Proof.
  intros Hattr Hstride Hvbo Htarget. unfold attrib_body.
  rewrite (bind_Ok _ _ s attribute s) by now apply at_index_lookup.
  rewrite (bind_Ok _ _ s stride s).
  2:{ unfold stride_of in Hstride.
      destruct (Nat.eqb _ 1); now apply at_index_lookup. }
  rewrite (bind_Ok _ _ s vbo s) by now apply at_index_lookup.
  unfold BufferObject.bind. rewrite Htarget. reflexivity.
Qed.

Lemma vertex_array_update_bound_log f c s :
  vertex_array (update_bound_vertex_array f (log_call c s)) (gl_vertex_array_binding s)
  = f (vertex_array s (gl_vertex_array_binding s)).
Proof. exact (vertex_array_update_bound f (log_call c s)). Qed.

Lemma wire_attrib_spec j attribute stride h s :
  let va := gl_vertex_array_binding s in
  let s' := wire_attrib j attribute stride h s in
  gl_vertex_array_binding s' = va /\
  wired_buffer s' va j = h /\
  attrib_stride (vertex_attrib (vertex_array s' va) j) = stride /\
  attrib_enabled (vertex_attrib (vertex_array s' va) j) = true /\
  (forall j', j' <> j ->
      vertex_attrib (vertex_array s' va) j' = vertex_attrib (vertex_array s va) j').
Proof.
  cbn zeta. unfold wire_attrib, wired_buffer. cbn zeta.
  set (s1 := set_array_buffer_binding h _).
  set (s2 := update_bound_vertex_array _ (log_call _ s1)).
  assert (H2 : vertex_array s2 (gl_vertex_array_binding s)
               = update_attrib j enable_attrib
                   (vertex_array s (gl_vertex_array_binding s)))
    by exact (vertex_array_update_bound_log _ _ s1).
  split; [reflexivity|].
  change (gl_vertex_array_binding s) with (gl_vertex_array_binding s2).
  rewrite vertex_array_update_bound_log.
  change (gl_vertex_array_binding s2) with (gl_vertex_array_binding s).
  rewrite H2, !vertex_attrib_update_eq. cbn.
  repeat split.
  intros j' Hne. now rewrite !vertex_attrib_update_ne by congruence.
Qed.

Lemma attrib_body_inv vertex_descriptor vbos j s u s' :
  Forall (fun vbo => bo_target vbo = GL_ARRAY_BUFFER) vbos ->
  attrib_body vertex_descriptor vbos j tt s = Ok (u, s') ->
  exists attribute stride vbo,
    attributes vertex_descriptor !! Z.to_nat j = Some attribute /\
    stride_of vertex_descriptor (Z.to_nat j) = Some stride /\
    vbos !! Z.to_nat j = Some vbo /\
    s' = wire_attrib j attribute stride (bo_handle vbo) s.
Proof.
  intros Htargets H. pose proof H as Hrun. unfold attrib_body in H.
  inv_bind H as attribute s1 Hattr. apply at_index_Ok_inv in Hattr as [Hattr ->].
  inv_bind H as stride s2 Hstride. apply stride_lookup_inv in Hstride as [Hstride ->].
  inv_bind H as vbo s3 Hvbo. apply at_index_Ok_inv in Hvbo as [Hvbo ->].
  exists attribute, stride, vbo. repeat split; try assumption.
  rewrite (attrib_body_run _ _ _ attribute stride vbo) in Hrun; try assumption.
  - now inversion Hrun.
  - exact (proj1 (Forall_lookup _ _) Htargets _ _ Hvbo).
Qed.

Section AttribLoop.

Variable vertex_descriptor : VertexLayout.
Variable vbos : list BufferObject.

Let body := attrib_body vertex_descriptor vbos.

Let wired := wired vertex_descriptor vbos.

Lemma wired_same_attrib s s' va j :
  vertex_attrib (vertex_array s' va) j = vertex_attrib (vertex_array s va) j ->
  wired s va j -> wired s' va j.
Proof.
  intros Heq (vbo & stride & Hvbo & Hstride & Hbuf & Hst & Hen).
  exists vbo, stride. unfold wired_buffer in *. rewrite Heq. auto.
Qed.

Hypothesis Htargets : Forall (fun vbo => bo_target vbo = GL_ARRAY_BUFFER) vbos.

Lemma for_loop_attribs n : forall i s u s',
  for_loop n i body tt s = Ok (u, s') ->
  gl_vertex_array_binding s' = gl_vertex_array_binding s /\
  (forall j, i <= j < i + Z.of_nat n -> wired s' (gl_vertex_array_binding s) j) /\
  (forall j, j < i ->
     vertex_attrib (vertex_array s' (gl_vertex_array_binding s)) j
     = vertex_attrib (vertex_array s (gl_vertex_array_binding s)) j).
Proof.
  induction n as [|n IH]; intros i s u s' H; cbn [for_loop] in H.
  - apply mret_Ok_inv in H as [_ ->]. repeat split. intros j Hj. lia.
  - inv_bind H as u1 s1 Hbody. destruct u1.
    apply attrib_body_inv in Hbody as (attribute & stride & vbo & Hattr & Hstride & Hvbo & ->);
      [|exact Htargets].
    destruct (wire_attrib_spec i attribute stride (bo_handle vbo) s)
      as (Hva & Hbuf & Hst & Hen & Hothers).
    apply IH in H as (Hva' & Hwired & Hbelow). rewrite Hva in Hva', Hwired, Hbelow.
    split; [exact Hva'|]. split.
    + intros j Hj. destruct (decide (j = i)) as [->|Hne].
      * apply (wired_same_attrib (wire_attrib i attribute stride (bo_handle vbo) s)).
        -- apply Hbelow. lia.
        -- exists vbo, stride. auto.
      * apply Hwired. lia.
    + intros j Hj. rewrite Hbelow by lia. apply Hothers. lia.
Qed.

End AttribLoop.

Lemma attrib_body_total vertex_descriptor vbos j s :
  0 <= j ->
  (Z.to_nat j < length (attributes vertex_descriptor))%nat ->
  (Z.to_nat j < length vbos)%nat ->
  (length (strides vertex_descriptor) <> 1%nat ->
   (Z.to_nat j < length (strides vertex_descriptor))%nat) ->
  exists s', attrib_body vertex_descriptor vbos j tt s = Ok (tt, s').
Proof.
  intros Hj Hattrs Hvbos Hstrides.
  destruct (lookup_lt_is_Some_2 _ _ Hattrs) as [attribute Hattr].
  destruct (lookup_lt_is_Some_2 _ _ Hvbos) as [vbo Hvbo].
  assert (exists stride, stride_of vertex_descriptor (Z.to_nat j) = Some stride)
    as [stride Hstride].
  { unfold stride_of. destruct (Nat.eqb_spec (length (strides vertex_descriptor)) 1) as [H1|H1].
    - apply lookup_lt_is_Some_2. lia.
    - apply lookup_lt_is_Some_2. auto. }
  unfold attrib_body.
  rewrite (bind_Ok _ _ s attribute s) by now apply at_index_lookup.
  rewrite (bind_Ok _ _ s stride s).
  2:{ unfold stride_of in Hstride.
      destruct (Nat.eqb _ 1); now apply at_index_lookup. }
  rewrite (bind_Ok _ _ s vbo s) by now apply at_index_lookup.
  eexists. reflexivity.
Qed.

Lemma for_loop_attribs_total vertex_descriptor vbos n : forall i s,
  0 <= i ->
  (Z.to_nat i + n <= length (attributes vertex_descriptor))%nat ->
  (Z.to_nat i + n <= length vbos)%nat ->
  (length (strides vertex_descriptor) <> 1%nat ->
   (Z.to_nat i + n <= length (strides vertex_descriptor))%nat) ->
  exists s', for_loop n i (attrib_body vertex_descriptor vbos) tt s = Ok (tt, s').
Proof.
  induction n as [|n IH]; intros i s Hi Hattrs Hvbos Hstrides; cbn [for_loop].
  - now eexists.
  - destruct (attrib_body_total vertex_descriptor vbos i s) as [s1 H1]; [lia..|].
    rewrite (bind_Ok _ _ s tt s1) by exact H1.
    apply IH; lia.
Qed.

Lemma attrib_count_le vertex_descriptor :
  (Z.to_nat (attrib_count vertex_descriptor) <= length (attributes vertex_descriptor))%nat.
Proof.
  unfold attrib_count, to_GLuint.
  pose proof (Z.mod_le (Z.of_nat (length (attributes vertex_descriptor))) (2 ^ 32)).
  lia.
Qed.

Lemma attrib_loop_total vertex_descriptor vbos s :
  (length (attributes vertex_descriptor) <= length vbos)%nat ->
  (length (strides vertex_descriptor) <> 1%nat ->
   (length (attributes vertex_descriptor) <= length (strides vertex_descriptor))%nat) ->
  exists s', attrib_loop vertex_descriptor vbos s = Ok (tt, s').
Proof.
  intros Hvbos Hstrides. rewrite attrib_loop_unfold.
  pose proof (attrib_count_le vertex_descriptor).
  apply for_loop_attribs_total; lia.
Qed.

(** ** The constructors *)

Lemma to_GLsizeiptr_idem z : to_GLsizeiptr (to_GLsizeiptr z) = to_GLsizeiptr z.
Proof.
  unfold to_GLsizeiptr.
  replace ((z + 2 ^ 63) mod 2 ^ 64 - 2 ^ 63 + 2 ^ 63) with ((z + 2 ^ 63) mod 2 ^ 64) by lia.
  now rewrite Z.mod_mod by lia.
Qed.

Lemma to_GLsizeiptr_small z : - 2 ^ 63 <= z < 2 ^ 63 -> to_GLsizeiptr z = z.
Proof. intros H. unfold to_GLsizeiptr. rewrite Z.mod_small by lia. lia. Qed.

(** What a successful construction yields: the fields taken from the
    arguments, the vertex buffers in input order with their byte sizes, and
    the per-attribute loop run on them with the new vertex array bound. *)
Lemma construct_inv c s m s' :
  construct c s = Ok (m, s') ->
  m_index_type m = index_type_arg (rest_args c) /\
  m_usage m = usage_arg (rest_args c) /\
  m_primitive_type m = primitive_type_arg (rest_args c) /\
  m_vertex_descriptor m = supplied_layout c /\
  bo_byte_size (m_ibo m) = supplied_index_byte_size c /\
  m_indices_cnt m = computed_indices_cnt c /\
  length (m_vbos m) = supplied_vertex_buffers c /\
  (forall k vbo, m_vbos m !! k = Some vbo ->
     bo_target vbo = GL_ARRAY_BUFFER /\
     to_GLsizeiptr <$> supplied_vertex_byte_size c k
     = Some (to_GLsizeiptr (bo_byte_size vbo))) /\
  exists s0 s1,
    gl_vertex_array_binding s0 = m_va_handle m /\
    attrib_loop (supplied_layout c) (m_vbos m) s0 = Ok (tt, s1) /\
    same_attribs s1 s'.
Proof.
  destruct c as [vertex_data sizes index_data index_size layout rest
                |VCt ICt VC IC vertex_data index_data layout rest];
    cbn [construct]; intros H.
  - unfold Mesh_from_pointers in H.
    inv_bind H as ibo s1 Hibo. apply BufferObject_new_inv in Hibo as (_ & Hsize & _).
    inv_bind H as vbos s2 Hvbos.
    apply unsigned_for_loop_Ok_inv in Hvbos as [_ Hvbos].
    apply (for_loop_append (fun i vbo =>
             bo_target vbo = GL_ARRAY_BUFFER /\
             to_GLsizeiptr <$> (Z.of_N <$> sizes !! Z.to_nat i)
             = Some (to_GLsizeiptr (bo_byte_size vbo)))) in Hvbos
      as (l & -> & Hlen & Hl).
    2:{ intros i acc t acc' t' Hb. unfold emplace_vbo_pointer in Hb.
        inv_bind Hb as data t1 Hd. apply at_index_Ok_inv in Hd as [_ ->].
        inv_bind Hb as sz t2 Hsz. apply at_index_Ok_inv in Hsz as [Hsz ->].
        inv_bind Hb as vbo t3 Hvbo. apply BufferObject_new_inv in Hvbo as (Ht & Hb' & _).
        apply mret_Ok_inv in Hb as [-> _]. exists vbo. cbn beta. split; [reflexivity|]. split; [exact Ht|].
        unfold size_t in *. rewrite Hsz, Hb'. cbn. now rewrite to_GLsizeiptr_idem. }
    inv_bind H as va s3 Hva. inversion Hva; subst va s3; clear Hva.
    inv_bind H as u4 s4 Hbind. apply glBindVertexArray_inv in Hbind as (Hb4 & _ & _).
    inv_bind H as u5 s5 Hibo. apply glBindBuffer_inv in Hibo as (Hb5 & _ & _).
    inv_bind H as u6 s6 Hloop. destruct u6.
    inv_bind H as u7 s7 H7. apply glBindVertexArray_inv in H7 as (_ & _ & H7).
    inv_bind H as u8 s8 H8. apply glBindBuffer_inv in H8 as (_ & H8 & _).
    inv_bind H as u9 s9 H9. apply glBindBuffer_inv in H9 as (_ & H9 & _).
    inv_bind H as u10 s10 H10. apply report_construction_error_inv in H10 as (_ & _ & H10).
    apply mret_Ok_inv in H as [-> ->]. cbn.
    do 7 (split; [assumption || reflexivity|]). split.
    + intros k vbo Hk. apply Hl in Hk. now rewrite Z.add_0_l, Nat2Z.id in Hk.
    + exists s5, s6. split; [congruence|]. split; [exact Hloop|].
      eauto using same_attribs_trans.
  - unfold Mesh_from_containers in H.
    inv_bind H as ibo s1 Hibo. apply BufferObject_new_inv in Hibo as (_ & Hsize & _).
    inv_bind H as vbos s2 Hvbos.
    apply unsigned_for_loop_Ok_inv in Hvbos as [_ Hvbos].
    apply (for_loop_append (fun i vbo =>
             bo_target vbo = GL_ARRAY_BUFFER /\
             to_GLsizeiptr <$> (c_byte_size <$> vertex_data !! Z.to_nat i)
             = Some (to_GLsizeiptr (bo_byte_size vbo)))) in Hvbos
      as (l & -> & Hlen & Hl).
    2:{ intros i acc t acc' t' Hb. unfold emplace_vbo_container in Hb.
        inv_bind Hb as data t1 Hd. apply at_index_Ok_inv in Hd as [Hd ->].
        inv_bind Hb as vbo t3 Hvbo. apply BufferObject_new_inv in Hvbo as (Ht & Hb' & _).
        apply mret_Ok_inv in Hb as [-> _]. exists vbo. cbn beta. split; [reflexivity|]. split; [exact Ht|].
        now rewrite Hd, Hb'. }
    inv_bind H as va s3 Hva. inversion Hva; subst va s3; clear Hva.
    inv_bind H as u4 s4 Hbind. apply glBindVertexArray_inv in Hbind as (Hb4 & _ & _).
    inv_bind H as u5 s5 Hibo. apply glBindBuffer_inv in Hibo as (Hb5 & _ & _).
    inv_bind H as u6 s6 Hloop. destruct u6.
    inv_bind H as u7 s7 H7. apply glBindVertexArray_inv in H7 as (_ & _ & H7).
    inv_bind H as u8 s8 H8. apply glBindBuffer_inv in H8 as (_ & H8 & _).
    inv_bind H as u10 s10 H10. apply report_construction_error_inv in H10 as (_ & _ & H10).
    apply mret_Ok_inv in H as [-> ->]. cbn.
    do 7 (split; [assumption || reflexivity|]). split.
    + intros k vbo Hk. apply Hl in Hk. now rewrite Z.add_0_l, Nat2Z.id in Hk.
    + exists s5, s6. split; [congruence|]. split; [exact Hloop|].
      eauto using same_attribs_trans.
Qed.

(** ** Indices count *)

Lemma element_size_cases t e :
  element_size t = Some e ->
  (t = GL_UNSIGNED_BYTE /\ e = 1) \/ (t = GL_UNSIGNED_SHORT /\ e = 2) \/
  (t = GL_UNSIGNED_INT /\ e = 4).
Proof.
  unfold element_size.
  destruct (Z.eqb_spec t GL_UNSIGNED_BYTE); [intros [= <-]; auto|].
  destruct (Z.eqb_spec t GL_UNSIGNED_SHORT); [intros [= <-]; auto|].
  destruct (Z.eqb_spec t GL_UNSIGNED_INT); [intros [= <-]; auto|].
  discriminate.
Qed.

Lemma to_GLuint_small z : 0 <= z < 2 ^ 32 -> to_GLuint z = z.
Proof. intros H. unfold to_GLuint. now apply Z.mod_small. Qed.

Lemma to_size_t_small z : 0 <= z < 2 ^ 64 -> to_size_t z = z.
Proof. intros H. unfold to_size_t. now apply Z.mod_small. Qed.

Lemma indices_cnt_of_byte_size_div t e size :
  element_size t = Some e -> 0 <= size < 2 ^ 32 ->
  indices_cnt_of_byte_size t size 0 = size / e.
Proof.
  intros He Hsize.
  destruct (element_size_cases _ _ He) as [[-> ->]|[[-> ->]|[-> ->]]];
    unfold indices_cnt_of_byte_size; cbn [Z.eqb GL_UNSIGNED_INT GL_UNSIGNED_SHORT
      GL_UNSIGNED_BYTE Pos.eqb];
    rewrite Z.quot_div_nonneg by lia; apply to_GLuint_small;
    (split; [apply Z.div_pos; lia | apply Z.div_lt_upper_bound; lia]).
Qed.

Lemma indices_cnt_of_vi_size_div t e size :
  element_size t = Some e -> 0 <= size < 2 ^ 32 ->
  indices_cnt_of_vi_size t (to_GLuint (to_size_t size)) 0 = size / e.
Proof.
  intros He Hsize. rewrite to_size_t_small, to_GLuint_small by lia.
  destruct (element_size_cases _ _ He) as [[-> ->]|[[-> ->]|[-> ->]]];
    unfold indices_cnt_of_vi_size; cbn [Z.eqb GL_UNSIGNED_INT GL_UNSIGNED_SHORT
      GL_UNSIGNED_BYTE Pos.eqb];
    apply to_GLuint_small;
    (split; [apply Z.div_pos; lia | apply Z.div_lt_upper_bound; lia]).
Qed.

(** C1, counterexample: 5 bytes of index data with 32-bit indices give a
    Mesh whose indices count is 1 and whose index buffer has 5 bytes, and
    1 * 4 is not 5. *)
Lemma indices_count_times_size_counterexample :
  exists m s', construct five_byte_call gl_init = Ok (m, s') /\
    element_size (getIndexType m) = Some 4 /\
    getIndicesCount m = 1 /\ getIndexBufferByteSize m = 5 /\
    getIndicesCount m * 4 <> getIndexBufferByteSize m.
Proof.
  eexists _, _. split; [vm_compute; reflexivity|].
  repeat split. discriminate.
Qed.

(** C1, as amended: for a Mesh constructed with an 8-, 16- or 32-bit
    unsigned index type (element size e) and an index buffer of fewer than
    2^32 bytes, getIndicesCount() is getIndexBufferByteSize() divided by e,
    rounded down; the product getIndicesCount() * e is the byte size less its
    remainder modulo e, hence the byte size itself when e divides it. *)
Theorem indices_count_is_quotient (c : Construction) (s : State) (m : Mesh)
    (s' : State) (e : Z)
    (Hconstructed : construct c s = Ok (m, s'))
    (Helement : element_size (getIndexType m) = Some e)
    (Hsize : 0 <= getIndexBufferByteSize m < 2 ^ 32) :
  getIndicesCount m = getIndexBufferByteSize m / e /\
  getIndicesCount m * e = getIndexBufferByteSize m - getIndexBufferByteSize m mod e.
Proof.
  apply construct_inv in Hconstructed
    as (Htype & _ & _ & _ & Hibo & Hcnt & _).
  unfold getIndicesCount, getIndexBufferByteSize, getIndexType,
    BufferObject.getByteSize in *.
  assert (Hquot : m_indices_cnt m = bo_byte_size (m_ibo m) / e).
  { rewrite Hcnt, Hibo. rewrite Hibo, Htype in *.
    destruct c; cbn [computed_indices_cnt supplied_index_byte_size rest_args] in *.
    - now apply indices_cnt_of_byte_size_div.
    - now apply indices_cnt_of_vi_size_div. }
  split; [exact Hquot|].
  assert (0 < e) by (destruct (element_size_cases _ _ Helement) as [[_ ->]|[[_ ->]|[_ ->]]]; lia).
  rewrite Hquot. pose proof (Z.div_mod (bo_byte_size (m_ibo m)) e). lia.
Qed.

Lemma indices_count_is_quotient_witness :
  exists m s', construct five_byte_call gl_init = Ok (m, s') /\
    getIndicesCount m = getIndexBufferByteSize m / 4 /\
    getIndicesCount m * 4 = getIndexBufferByteSize m - getIndexBufferByteSize m mod 4.
Proof.
  eexists _, _. split; [vm_compute; reflexivity|].
  eapply (indices_count_is_quotient five_byte_call gl_init).
  - vm_compute. reflexivity.
  - reflexivity.
  - vm_compute. split; [discriminate|reflexivity].
Defined.

(** C10: a Mesh constructed with an index type that is none of
    GL_UNSIGNED_BYTE, GL_UNSIGNED_SHORT and GL_UNSIGNED_INT has indices count
    0, whatever the byte size of the index data. *)
Theorem indices_count_unknown_index_type (c : Construction) (s : State) (m : Mesh)
    (s' : State)
    (Hconstructed : construct c s = Ok (m, s'))
    (Hbyte : getIndexType m <> GL_UNSIGNED_BYTE)
    (Hshort : getIndexType m <> GL_UNSIGNED_SHORT)
    (Hint : getIndexType m <> GL_UNSIGNED_INT) :
  getIndicesCount m = 0.
Proof.
  apply construct_inv in Hconstructed as (Htype & _ & _ & _ & _ & Hcnt & _).
  unfold getIndicesCount, getIndexType in *. rewrite Hcnt. rewrite Htype in *.
  apply Z.eqb_neq in Hbyte, Hshort, Hint.
  destruct c; cbn [computed_indices_cnt rest_args] in *;
    unfold indices_cnt_of_byte_size, indices_cnt_of_vi_size;
    now rewrite Hint, Hshort, Hbyte.
Qed.

Lemma indices_count_unknown_index_type_witness :
  exists m s', construct int_index_call gl_init = Ok (m, s') /\
    getIndexBufferByteSize m = 12 /\ getIndicesCount m = 0.
Proof.
  eexists _, _. split; [vm_compute; reflexivity|]. split; [reflexivity|].
  eapply (indices_count_unknown_index_type int_index_call gl_init).
  - vm_compute. reflexivity.
  - discriminate.
  - discriminate.
  - discriminate.
Defined.

(** ** Accessors *)

Lemma supplied_vertex_byte_size_nonneg c i supplied :
  supplied_vertex_byte_size c i = Some supplied -> 0 <= supplied.
Proof.
  destruct c as [vertex_data sizes index_data index_size layout rest
                |VCt ICt VC IC vertex_data index_data layout rest];
    cbn [supplied_vertex_byte_size]; intros H.
  - destruct (sizes !! i) as [sz|]; [|discriminate]. injection H as <-. lia.
  - destruct (vertex_data !! i) as [v|]; [|discriminate]. injection H as <-.
    unfold c_byte_size. lia.
Qed.

(** C7, counterexample: a vertex buffer constructed with the size_t byte
    size 2^64 - 1 reports -1, not the byte size supplied. *)
Lemma getVertexBufferByteSize_counterexample :
  exists m s', construct size_max_call gl_init = Ok (m, s') /\
    (0 < N.of_nat (length (getVbo m)))%N /\
    supplied_vertex_byte_size size_max_call 0 = Some 18446744073709551615 /\
    getVertexBufferByteSize m 0%N = -1 /\
    getVertexBufferByteSize m 0%N <> 18446744073709551615.
Proof.
  eexists _, _. split; [vm_compute; reflexivity|].
  split; [reflexivity|]. split; [reflexivity|]. split; [reflexivity|]. discriminate.
Qed.

(** C7, as amended: for a constructed Mesh, getVertexBufferByteSize(i) is,
    when i is less than the number of vertex buffers (which is the number
    supplied), the byte size supplied for the ith vertex buffer converted to
    the signed 64-bit GLsizeiptr, hence the supplied byte size itself when
    that is below 2^63; it is 0 when i is at or beyond the number of vertex
    buffers. *)
Theorem getVertexBufferByteSize_spec (c : Construction) (s : State) (m : Mesh)
    (s' : State) (vbo_idx : size_t)
    (Hconstructed : construct c s = Ok (m, s')) :
  length (getVbo m) = supplied_vertex_buffers c /\
  ((vbo_idx < N.of_nat (length (getVbo m)))%N ->
   exists supplied,
     supplied_vertex_byte_size c (N.to_nat vbo_idx) = Some supplied /\
     getVertexBufferByteSize m vbo_idx = to_GLsizeiptr supplied /\
     (supplied < 2 ^ 63 -> getVertexBufferByteSize m vbo_idx = supplied)) /\
  ((N.of_nat (length (getVbo m)) <= vbo_idx)%N ->
   getVertexBufferByteSize m vbo_idx = 0).
Proof.
  apply construct_inv in Hconstructed as (_ & _ & _ & _ & _ & _ & Hlen & Hvbos & _).
  unfold getVbo, getVertexBufferByteSize. split; [exact Hlen|]. split.
  - intros Hlt. pose proof Hlt as Hlt'. apply N.ltb_lt in Hlt'. rewrite Hlt'.
    destruct (lookup_lt_is_Some_2 (m_vbos m) (N.to_nat vbo_idx)) as [vbo Hvbo]; [lia|].
    rewrite Hvbo. destruct (Hvbos _ _ Hvbo) as [_ Hsize].
    destruct (supplied_vertex_byte_size c (N.to_nat vbo_idx)) as [supplied|] eqn:Hs;
      [|discriminate].
    injection Hsize as Hsize. exists supplied. split; [reflexivity|].
    unfold BufferObject.getByteSize. split; [now rewrite Hsize|].
    intros Hsmall. rewrite <- Hsize. apply to_GLsizeiptr_small.
    apply supplied_vertex_byte_size_nonneg in Hs. lia.
  - intros Hge. apply N.ltb_ge in Hge. now rewrite Hge.
Qed.

Lemma getVertexBufferByteSize_spec_witness :
  exists m s', construct five_byte_call gl_init = Ok (m, s') /\
    getVertexBufferByteSize m 1%N = 4 /\ getVertexBufferByteSize m 2%N = 0.
Proof.
  destruct (construct five_byte_call gl_init) as [[m s']| |] eqn:Hc;
    [|vm_compute in Hc; discriminate..].
  assert (Hlen : length (getVbo m) = 2%nat).
  { vm_compute in Hc. injection Hc as <- _. reflexivity. }
  exists m, s'. split; [reflexivity|]. split.
  - destruct (getVertexBufferByteSize_spec _ _ _ _ 1%N Hc) as (_ & Hin & _).
    destruct Hin as (supplied & Hs & _ & Hsmall); [rewrite Hlen; reflexivity|].
    cbn in Hs. injection Hs as <-. apply Hsmall. reflexivity.
  - destruct (getVertexBufferByteSize_spec _ _ _ _ 2%N Hc) as (_ & _ & Hout).
    apply Hout. rewrite Hlen. discriminate.
Defined.

(** C9: getPrimitiveType, getIndexType and getVertexLayout (and the stored
    usage) are the values the constructor call supplies; for the arguments
    the call leaves out they are GL_UNSIGNED_INT, GL_STATIC_DRAW and
    GL_TRIANGLES; draw() is draw(1). *)
Theorem accessors_return_supplied (c : Construction) (s : State) (m : Mesh)
    (s' : State)
    (Hconstructed : construct c s = Ok (m, s')) :
  getVertexLayout m = supplied_layout c /\
  match rest_args c with
  | NoneGiven =>
      getIndexType m = GL_UNSIGNED_INT /\ m_usage m = GL_STATIC_DRAW /\
      getPrimitiveType m = GL_TRIANGLES
  | IndexTypeGiven index_type =>
      getIndexType m = index_type /\ m_usage m = GL_STATIC_DRAW /\
      getPrimitiveType m = GL_TRIANGLES
  | UsageGiven index_type usage =>
      getIndexType m = index_type /\ m_usage m = usage /\
      getPrimitiveType m = GL_TRIANGLES
  | AllGiven index_type usage primitive_type =>
      getIndexType m = index_type /\ m_usage m = usage /\
      getPrimitiveType m = primitive_type
  end /\
  draw_default m = draw m 1.
Proof.
  apply construct_inv in Hconstructed as (Htype & Husage & Hprim & Hlayout & _).
  unfold getVertexLayout, getIndexType, getPrimitiveType.
  split; [exact Hlayout|]. split; [|reflexivity].
  rewrite Htype, Husage, Hprim. now destruct (rest_args c).
Qed.

Lemma accessors_return_supplied_witness :
  exists m s', construct five_byte_call gl_init = Ok (m, s') /\
    getVertexLayout m = quad_layout /\
    getIndexType m = GL_UNSIGNED_INT /\ m_usage m = GL_STATIC_DRAW /\
    getPrimitiveType m = GL_TRIANGLES.
Proof.
  eexists _, _. split; [vm_compute; reflexivity|].
  assert (Hc : construct five_byte_call gl_init = Ok (_, _)) by (vm_compute; reflexivity).
  destruct (accessors_return_supplied _ _ _ _ Hc) as (Hlayout & Hrest & _).
  split; [exact Hlayout|]. exact Hrest.
Defined.

Lemma bufferVertexSubData_out_of_range_witness :
  exists m s', construct five_byte_call gl_init = Ok (m, s') /\
    bufferVertexSubData m 5%N [9; 9] 2 0 s' = Ok (m, s').
Proof.
  destruct (construct five_byte_call gl_init) as [[m s']| |] eqn:Hc;
    [|vm_compute in Hc; discriminate..].
  exists m, s'. split; [reflexivity|].
  assert (Hrange : (N.of_nat (length (m_vbos m)) <= 5)%N).
  { vm_compute in Hc. injection Hc as <- _. vm_compute. discriminate. }
  exact (proj1 (bufferVertexSubData_out_of_range m 5%N s' Hrange) _ _ _).
Defined.

(** ** Attribute wiring *)

(** C2, counterexample: with one shared stride, two attributes and two
    vertex buffers, attribute 1 reads from the buffer of vbos[1], which is not
    the buffer of vbos[0]. *)
Lemma shared_stride_wiring_counterexample :
  exists m s' vbo0 vbo1,
    construct five_byte_call gl_init = Ok (m, s') /\
    length (strides (getVertexLayout m)) = 1%nat /\
    getVbo m !! 0%nat = Some vbo0 /\ getVbo m !! 1%nat = Some vbo1 /\
    wired_buffer s' (m_va_handle m) 1 = bo_handle vbo1 /\
    wired_buffer s' (m_va_handle m) 1 <> bo_handle vbo0.
Proof.
  eexists _, _, _, _. split; [vm_compute; reflexivity|].
  split; [reflexivity|]. split; [reflexivity|]. split; [reflexivity|].
  split; [vm_compute; reflexivity|]. vm_compute. discriminate.
Qed.

(** C2, as amended: whether the layout supplies one shared stride or one
    stride per attribute, construction wires attribute i of the Mesh's vertex
    array, for every i the loop visits, to the buffer of vbos[i] and enables
    it; the number of strides only selects the stride recorded: the single
    one, or the ith. *)
Theorem attribute_wiring (c : Construction) (s : State) (m : Mesh) (s' : State)
    (i : Z)
    (Hconstructed : construct c s = Ok (m, s'))
    (Hvisited : 0 <= i < attrib_count (getVertexLayout m)) :
  exists vbo stride,
    getVbo m !! Z.to_nat i = Some vbo /\
    stride_of (getVertexLayout m) (Z.to_nat i) = Some stride /\
    wired_buffer s' (m_va_handle m) i = bo_handle vbo /\
    attrib_stride (vertex_attrib (vertex_array s' (m_va_handle m)) i) = stride /\
    attrib_enabled (vertex_attrib (vertex_array s' (m_va_handle m)) i) = true.
Proof.
  apply construct_inv in Hconstructed
    as (_ & _ & _ & Hlayout & _ & _ & _ & Hvbos & s0 & s1 & Hva & Hloop & Hsame).
  unfold getVertexLayout, getVbo in *. rewrite Hlayout in *.
  unfold attrib_loop in Hloop.
  apply for_loop_attribs in Hloop as (_ & Hwired & _).
  - rewrite Hva in Hwired.
    apply (wired_same_attrib _ _ s1 s'); [|apply Hwired; lia].
    unfold vertex_attrib. now rewrite Hsame.
  - apply Forall_lookup. intros k vbo Hk. now apply Hvbos in Hk.
Qed.

Lemma attribute_wiring_witness :
  exists m s' vbo,
    construct five_byte_call gl_init = Ok (m, s') /\
    getVbo m !! 1%nat = Some vbo /\
    wired_buffer s' (m_va_handle m) 1 = bo_handle vbo.
Proof.
  destruct (construct five_byte_call gl_init) as [[m s']| |] eqn:Hc;
    [|vm_compute in Hc; discriminate..].
  assert (Hi : 0 <= 1 < attrib_count (getVertexLayout m)).
  { vm_compute in Hc. injection Hc as <- _. vm_compute.
    split; [discriminate|reflexivity]. }
  destruct (attribute_wiring _ _ _ _ 1 Hc Hi) as (vbo & stride & Hvbo & _ & Hbuf & _).
  exists m, s', vbo. split; [reflexivity|]. split; [exact Hvbo|exact Hbuf].
Defined.

(** ** Index ranges during construction *)

Lemma succeeds_bind {A B} (c : M A) (f : A -> M B) s a s1 :
  c s = Ok (a, s1) -> succeeds (f a s1) -> succeeds ((c ≫= f) s).
Proof. intros Hc Hf. now rewrite (bind_Ok _ _ _ _ _ Hc). Qed.

Lemma for_loop_succeeds {A} (body : Z -> A -> M A) n : forall i acc s,
  (forall k acc' s', i <= k < i + Z.of_nat n -> succeeds (body k acc' s')) ->
  succeeds (for_loop n i body acc s).
Proof.
  induction n as [|n IH]; intros i acc s Hbody; cbn [for_loop].
  - now exists acc, s.
  - destruct (Hbody i acc s) as (acc1 & s1 & H1); [lia|].
    apply (succeeds_bind _ _ _ _ _ H1). apply IH.
    intros k acc' s' Hk. apply Hbody. lia.
Qed.

Lemma emplace_vbo_pointer_succeeds vertex_data sizes usage i vbos s :
  0 <= i -> (Z.to_nat i < length vertex_data)%nat -> (Z.to_nat i < length sizes)%nat ->
  succeeds (emplace_vbo_pointer vertex_data sizes usage i vbos s).
Proof.
  intros Hi Hdata Hsizes.
  destruct (lookup_lt_is_Some_2 _ _ Hdata) as [data Hd].
  destruct (lookup_lt_is_Some_2 _ _ Hsizes) as [sz Hsz].
  unfold emplace_vbo_pointer.
  eapply succeeds_bind; [apply at_index_lookup; exact Hd|].
  eapply succeeds_bind; [apply at_index_lookup; exact Hsz|].
  eapply succeeds_bind; [reflexivity|]. now eexists _, _.
Qed.

Lemma emplace_vbo_container_succeeds {C} `{Container C} (vertex_data : list C)
    usage i vbos s :
  0 <= i -> (Z.to_nat i < length vertex_data)%nat ->
  succeeds (emplace_vbo_container vertex_data usage i vbos s).
Proof.
  intros Hi Hdata.
  destruct (lookup_lt_is_Some_2 _ _ Hdata) as [data Hd].
  unfold emplace_vbo_container.
  eapply succeeds_bind; [apply at_index_lookup; exact Hd|].
  eapply succeeds_bind; [reflexivity|]. now eexists _, _.
Qed.

Lemma for_loop_length {B} (body : Z -> list B -> M (list B)) n i s r s' :
  (forall i acc s acc' s', body i acc s = Ok (acc', s') -> exists b, acc' = acc ++ [b]) ->
  for_loop n i body [] s = Ok (r, s') -> length r = n.
Proof.
  intros Hbody H.
  apply (for_loop_append (fun _ _ => True)) in H as (l & -> & Hlen & _); [exact Hlen|].
  intros i0 acc s0 acc' s0' Hb. apply Hbody in Hb as [b ->]. now exists b.
Qed.

Lemma emplace_vbo_pointer_appends vertex_data sizes usage i acc s acc' s' :
  emplace_vbo_pointer vertex_data sizes usage i acc s = Ok (acc', s') ->
  exists b, acc' = acc ++ [b].
Proof.
  unfold emplace_vbo_pointer. intros H.
  inv_bind H as data s1 H1. inv_bind H as sz s2 H2. inv_bind H as vbo s3 H3.
  apply mret_Ok_inv in H as [-> _]. now exists vbo.
Qed.

Lemma emplace_vbo_container_appends {C} `{Container C} (vertex_data : list C)
    usage i acc s acc' s' :
  emplace_vbo_container vertex_data usage i acc s = Ok (acc', s') ->
  exists b, acc' = acc ++ [b].
Proof.
  unfold emplace_vbo_container. intros Hrun.
  inv_bind Hrun as data s1 H1. inv_bind Hrun as vbo s3 H3.
  apply mret_Ok_inv in Hrun as [-> _]. now exists vbo.
Qed.

(** After the vertex buffers: the rest of either constructor returns when
    the per-attribute loop does. *)
Ltac run_call := eapply succeeds_bind; [reflexivity|].

Ltac run_attrib_loop Hvbos Hstrides :=
  match goal with
  | |- succeeds ((attrib_loop ?l ?v ≫= _) ?st) =>
      let s6 := fresh "s" in let H6 := fresh "H" in
      destruct (attrib_loop_total l v st Hvbos Hstrides) as [s6 H6];
      apply (succeeds_bind _ _ _ _ _ H6)
  end.

Lemma report_construction_error_succeeds s :
  exists s', report_construction_error s = Ok (tt, s').
Proof.
  unfold report_construction_error.
  rewrite (bind_Ok _ _ s (gl_error s) _ eq_refl).
  destruct (gl_error s =? GL_NO_ERROR); now eexists.
Qed.

Ltac run_report :=
  match goal with
  | |- succeeds ((report_construction_error ≫= _) ?st) =>
      let s9 := fresh "s" in let H9 := fresh "H" in
      destruct (report_construction_error_succeeds st) as [s9 H9];
      apply (succeeds_bind _ _ _ _ _ H9)
  end.

(** C3, counterexample: one attribute, one vertex buffer and a layout
    without any stride meet the stated precondition, and the loop reads
    strides[0] of an empty vector. *)
Lemma no_stride_counterexample :
  (length (attributes (supplied_layout no_stride_call))
   <= supplied_vertex_buffers no_stride_call)%nat /\
  ((1 < length (strides (supplied_layout no_stride_call)))%nat ->
   (length (attributes (supplied_layout no_stride_call))
    <= length (strides (supplied_layout no_stride_call)))%nat) /\
  construct no_stride_call gl_init = OutOfBounds.
Proof.
  split; [cbn; lia|]. split; [cbn; lia|]. vm_compute. reflexivity.
Qed.

(** C3, as amended: when the number of supplied vertex buffers is at least
    the number of attributes and, unless the layout has exactly one stride,
    the number of strides is at least the number of attributes, the
    per-attribute loop reads attributes, strides and vbos at in-range indices
    only and runs to its end, on any list of that many vertex buffers and in
    any context; if in addition the pointer form has a byte size for every
    vertex buffer and there are fewer than 2^32 vertex buffers, the whole
    construction returns a Mesh. *)
Theorem construction_in_bounds (c : Construction) (s : State)
    (Hvbos : (length (attributes (supplied_layout c)) <= supplied_vertex_buffers c)%nat)
    (Hstrides : length (strides (supplied_layout c)) <> 1%nat ->
                (length (attributes (supplied_layout c))
                 <= length (strides (supplied_layout c)))%nat) :
  (forall vbos s0, length vbos = supplied_vertex_buffers c ->
     exists s1, attrib_loop (supplied_layout c) vbos s0 = Ok (tt, s1)) /\
  (byte_sizes_cover c -> Z.of_nat (supplied_vertex_buffers c) < 2 ^ 32 ->
   exists m s', construct c s = Ok (m, s')).
Proof.
  split.
  { intros vbos s0 Hlen. apply attrib_loop_total; [lia|exact Hstrides]. }
  intros Hsizes Hcount.
  change (succeeds (construct c s)).
  destruct c as [vertex_data sizes index_data index_size layout rest
                |VCt ICt VC IC vertex_data index_data layout rest];
    cbn [construct supplied_layout supplied_vertex_buffers byte_sizes_cover] in *.
  - unfold Mesh_from_pointers. run_call.
    match goal with |- succeeds ((unsigned_for_loop ?n ?b ?a ≫= _) ?st) =>
      assert (Hloop : succeeds (unsigned_for_loop n b a st)) end.
    { unfold unsigned_for_loop. apply Z.leb_gt in Hcount. rewrite Hcount.
      apply for_loop_succeeds. intros k acc' s' Hk.
      apply emplace_vbo_pointer_succeeds; lia. }
    destruct Hloop as (vbos & s2 & Hloop). apply (succeeds_bind _ _ _ _ _ Hloop).
    apply unsigned_for_loop_Ok_inv in Hloop as [_ Hloop].
    apply for_loop_length in Hloop; [|apply emplace_vbo_pointer_appends].
    rewrite <- Hloop in Hvbos.
    run_call. run_call. run_call. run_attrib_loop Hvbos Hstrides.
    run_call. run_call. run_call. run_report. now eexists _, _.
  - unfold Mesh_from_containers. run_call.
    match goal with |- succeeds ((unsigned_for_loop ?n ?b ?a ≫= _) ?st) =>
      assert (Hloop : succeeds (unsigned_for_loop n b a st)) end.
    { unfold unsigned_for_loop. apply Z.leb_gt in Hcount. rewrite Hcount.
      apply for_loop_succeeds. intros k acc' s' Hk.
      apply emplace_vbo_container_succeeds; lia. }
    destruct Hloop as (vbos & s2 & Hloop). apply (succeeds_bind _ _ _ _ _ Hloop).
    apply unsigned_for_loop_Ok_inv in Hloop as [_ Hloop].
    apply for_loop_length in Hloop; [|apply emplace_vbo_container_appends].
    rewrite <- Hloop in Hvbos.
    run_call. run_call. run_call. run_attrib_loop Hvbos Hstrides.
    run_call. run_call. run_report. now eexists _, _.
Qed.

Lemma construction_in_bounds_witness :
  (forall vbos s0, length vbos = 2%nat ->
     exists s1, attrib_loop split_layout vbos s0 = Ok (tt, s1)) /\
  exists m s', construct split_call gl_init = Ok (m, s').
Proof.
  destruct (construction_in_bounds split_call gl_init) as [Hloop Hctor].
  - cbn. lia.
  - cbn. lia.
  - split; [exact Hloop|]. apply Hctor.
    + cbn. lia.
    + vm_compute. reflexivity.
Defined.

(** ** Bindings around draw *)

(** C4, counterexample: construct a Mesh, bind its first vertex buffer
    (BufferObject::bind on getVbo()[0]) and draw one instance: the
    array-buffer binding is still that buffer, not zero. *)
Lemma draw_array_buffer_counterexample :
  exists m s1 vbo s2 s3,
    construct five_byte_call gl_init = Ok (m, s1) /\
    getVbo m !! 0%nat = Some vbo /\
    BufferObject.bind vbo s1 = Ok (tt, s2) /\
    draw m 1 s2 = Ok (tt, s3) /\
    1 <= 1 /\
    gl_vertex_array_binding s3 = 0 /\
    gl_array_buffer_binding s3 = bo_handle vbo /\
    gl_array_buffer_binding s3 <> 0.
Proof.
  eexists _, _, _, _, _. split; [vm_compute; reflexivity|].
  split; [reflexivity|]. split; [vm_compute; reflexivity|].
  split; [vm_compute; reflexivity|].
  split; [lia|]. split; [reflexivity|]. split; [reflexivity|]. discriminate.
Qed.

(** ** Frames of the calls *)

Lemma quiet_refl s : quiet s s.
Proof. split; [apply same_attribs_refl|reflexivity]. Qed.

Lemma quiet_trans s1 s2 s3 : quiet s1 s2 -> quiet s2 s3 -> quiet s1 s3.
Proof.
  intros [Ha Hc] [Ha' Hc']. split; [eauto using same_attribs_trans|congruence].
Qed.

Section Preserves.

Variable R : State -> State -> Prop.
Hypothesis R_refl : forall s, R s s.
Hypothesis R_trans : forall s1 s2 s3, R s1 s2 -> R s2 s3 -> R s1 s3.

Lemma preserves_mret {A} (a : A) : preserves R (mret a : M A).
Proof. intros s b s' H. apply mret_Ok_inv in H as [_ ->]. apply R_refl. Qed.

Lemma preserves_bind {A B} (c : M A) (f : A -> M B) :
  preserves R c -> (forall a, preserves R (f a)) -> preserves R (c ≫= f).
Proof.
  intros Hc Hf s b s' H. inv_bind H as a s1 H1.
  eapply R_trans; [eapply Hc, H1|eapply Hf, H].
Qed.

Lemma preserves_at_index {A} (v : list A) i : preserves R (at_index v i).
Proof. intros s a s' H. apply at_index_Ok_inv in H as [_ ->]. apply R_refl. Qed.

Lemma preserves_for_loop {A} (body : Z -> A -> M A) :
  (forall i acc, preserves R (body i acc)) ->
  forall n i acc, preserves R (for_loop n i body acc).
Proof.
  intros Hbody. induction n as [|n IH]; intros i acc; cbn [for_loop].
  - apply preserves_mret.
  - apply preserves_bind; [apply Hbody|]. intros acc'. apply IH.
Qed.

Lemma preserves_unsigned_for_loop {A} (body : Z -> A -> M A) bound acc :
  (forall i acc, preserves R (body i acc)) ->
  preserves R (unsigned_for_loop bound body acc).
Proof.
  intros Hbody s a s' H. apply unsigned_for_loop_Ok_inv in H as [_ H].
  eapply preserves_for_loop; eauto.
Qed.

End Preserves.

Lemma quiet_glGenBuffers : preserves quiet glGenBuffers.
Proof. intros s a s' H. inversion H; subst. split; [now intros a|reflexivity]. Qed.

Lemma quiet_glGenVertexArrays : preserves quiet glGenVertexArrays.
Proof. intros s a s' H. inversion H; subst. split; [now intros a|reflexivity]. Qed.

Lemma quiet_glBindVertexArray array : preserves quiet (glBindVertexArray array).
Proof. intros s a s' H. inversion H; subst. split; [now intros a|reflexivity]. Qed.

Lemma glBindBuffer_cerr target b s u s' :
  glBindBuffer target b s = Ok (u, s') ->
  std_cerr s' = std_cerr s /\ gl_error s' = gl_error s.
Proof.
  intros H. unfold glBindBuffer, gl_call in H. inversion H; subst; clear H.
  destruct (target =? GL_ARRAY_BUFFER); [now split|].
  destruct (target =? GL_ELEMENT_ARRAY_BUFFER); now split.
Qed.

Lemma quiet_glBindBuffer target b : preserves quiet (glBindBuffer target b).
Proof.
  intros s a s' H. split.
  - now apply glBindBuffer_inv in H as (_ & H & _).
  - now apply glBindBuffer_cerr in H.
Qed.

Lemma quiet_record_error e s : quiet s (record_error e s).
Proof.
  unfold record_error. destruct (gl_error s =? GL_NO_ERROR);
    (split; [now intros a|reflexivity]).
Qed.

Lemma quiet_glBufferData target size data usage :
  preserves quiet (glBufferData target size data usage).
Proof.
  intros s a s' H. unfold glBufferData, gl_call in H. inversion H; subst; clear H.
  destruct (bound_buffer target (log_call _ s) =? 0); [apply (quiet_record_error _ (log_call _ s))|].
  destruct (size <? 0); [apply (quiet_record_error _ (log_call _ s))|].
  split; [now intros a|reflexivity].
Qed.

Ltac quiet_step lem :=
  apply (preserves_bind quiet quiet_trans); [apply lem|intros ?].

Ltac quiet_done := apply (preserves_mret quiet quiet_refl).

Lemma quiet_BufferObject_new target data byte_size usage :
  preserves quiet (BufferObject.new target data byte_size usage).
Proof.
  unfold BufferObject.new.
  quiet_step quiet_glGenBuffers. quiet_step quiet_glBindBuffer.
  quiet_step quiet_glBufferData. quiet_step quiet_glBindBuffer. quiet_done.
Qed.

Lemma quiet_at_index {A} (v : list A) i : preserves quiet (at_index v i).
Proof. apply preserves_at_index, quiet_refl. Qed.

Lemma quiet_emplace_vbo_pointer vertex_data sizes usage i acc :
  preserves quiet (emplace_vbo_pointer vertex_data sizes usage i acc).
Proof.
  unfold emplace_vbo_pointer.
  quiet_step @quiet_at_index. quiet_step @quiet_at_index.
  quiet_step quiet_BufferObject_new. quiet_done.
Qed.

Lemma quiet_emplace_vbo_container {C} `{Container C} (vertex_data : list C) usage i acc :
  preserves quiet (emplace_vbo_container vertex_data usage i acc).
Proof.
  unfold emplace_vbo_container, BufferObject.new_container.
  quiet_step @quiet_at_index. quiet_step quiet_BufferObject_new. quiet_done.
Qed.

(** ** What the per-attribute loop writes *)

Lemma vertex_array_wire_attrib j attribute stride h s :
  vertex_array (wire_attrib j attribute stride h s) (gl_vertex_array_binding s)
  = update_attrib j
      (point_attrib (size attribute) (type attribute) (normalized attribute)
         stride (offset attribute) h)
      (update_attrib j enable_attrib (vertex_array s (gl_vertex_array_binding s))).
Proof.
  unfold wire_attrib. cbn zeta.
  set (s1 := set_array_buffer_binding h _).
  set (s2 := update_bound_vertex_array _ (log_call _ s1)).
  assert (H2 : vertex_array s2 (gl_vertex_array_binding s)
               = update_attrib j enable_attrib
                   (vertex_array s (gl_vertex_array_binding s)))
    by exact (vertex_array_update_bound_log _ _ s1).
  change (gl_vertex_array_binding s) with (gl_vertex_array_binding s2) at 1.
  rewrite vertex_array_update_bound_log.
  change (gl_vertex_array_binding s2) with (gl_vertex_array_binding s).
  now rewrite H2.
Qed.

Lemma vertex_array_wire_attrib_ne j attribute stride h s a :
  a <> gl_vertex_array_binding s ->
  vertex_array (wire_attrib j attribute stride h s) a = vertex_array s a.
Proof.
  intros Hne. unfold wire_attrib. cbn zeta.
  set (s1 := set_array_buffer_binding h _).
  set (s2 := update_bound_vertex_array _ (log_call _ s1)).
  transitivity (vertex_array s2 a);
    [exact (vertex_array_update_bound_ne _ (log_call _ s2) a Hne)|].
  transitivity (vertex_array s1 a);
    [exact (vertex_array_update_bound_ne _ (log_call _ s1) a Hne)|reflexivity].
Qed.

Lemma wire_attrib_keeps j attribute stride h s :
  std_cerr (wire_attrib j attribute stride h s) = std_cerr s /\
  gl_error (wire_attrib j attribute stride h s) = gl_error s.
Proof. split; reflexivity. Qed.

Section AttribLoopEffect.

Variable vertex_descriptor : VertexLayout.
Variable vbos : list BufferObject.
Hypothesis Htargets : Forall (fun vbo => bo_target vbo = GL_ARRAY_BUFFER) vbos.

Let described := described vertex_descriptor vbos.

Lemma for_loop_attribs_effect n : forall i s u s',
  for_loop n i (attrib_body vertex_descriptor vbos) tt s = Ok (u, s') ->
  let va := gl_vertex_array_binding s in
  gl_vertex_array_binding s' = va /\
  std_cerr s' = std_cerr s /\
  gl_error s' = gl_error s /\
  (forall a, a <> va -> vertex_array s' a = vertex_array s a) /\
  vao_element_array_buffer (vertex_array s' va)
  = vao_element_array_buffer (vertex_array s va) /\
  (forall j, i <= j < i + Z.of_nat n ->
     described (vertex_array s va) (vertex_array s' va) j) /\
  (forall j, ~ i <= j < i + Z.of_nat n ->
     vertex_attrib (vertex_array s' va) j = vertex_attrib (vertex_array s va) j).
Proof.
  induction n as [|n IH]; intros i s u s' H; cbn [for_loop] in H; cbn zeta.
  - apply mret_Ok_inv in H as [_ ->]. repeat split; try reflexivity.
    intros j Hj. lia.
  - inv_bind H as u1 s1 Hbody. destruct u1.
    apply attrib_body_inv in Hbody
      as (attribute & stride & vbo & Hattr & Hstride & Hvbo & ->); [|exact Htargets].
    apply IH in H as (Hva & Hcerr & Herr & Hother & Helem & Hin & Hout).
    cbn zeta in *.
    assert (Hva1 : gl_vertex_array_binding
                     (wire_attrib i attribute stride (bo_handle vbo) s)
                   = gl_vertex_array_binding s) by reflexivity.
    rewrite Hva1 in *.
    pose proof (vertex_array_wire_attrib i attribute stride (bo_handle vbo) s) as Hw.
    split; [exact Hva|]. split; [exact Hcerr|]. split; [exact Herr|].
    split; [|split; [|split]].
    + intros a Ha. rewrite Hother by exact Ha.
      now apply vertex_array_wire_attrib_ne.
    + rewrite Helem, Hw. reflexivity.
    + intros j Hj. destruct (decide (j = i)) as [->|Hne].
      * exists attribute, stride, vbo.
        split; [exact Hattr|split; [exact Hstride|split; [exact Hvbo|]]].
        rewrite Hout by lia. rewrite Hw.
        now rewrite !vertex_attrib_update_eq.
      * destruct (Hin j) as (attribute' & stride' & vbo' & Ha' & Hs' & Hv' & Heq); [lia|].
        exists attribute', stride', vbo'.
        split; [exact Ha'|split; [exact Hs'|split; [exact Hv'|]]].
        rewrite Heq, Hw. now rewrite !vertex_attrib_update_ne by congruence.
    + intros j Hj. rewrite Hout by lia. rewrite Hw.
      now rewrite !vertex_attrib_update_ne by lia.
Qed.

End AttribLoopEffect.

(** ** The end of the constructors *)

Lemma glBindBuffer_element_inv b s u s' :
  glBindBuffer GL_ELEMENT_ARRAY_BUFFER b s = Ok (u, s') ->
  gl_vertex_array_binding s' = gl_vertex_array_binding s /\
  gl_array_buffer_binding s' = gl_array_buffer_binding s /\
  vao_element_array_buffer (vertex_array s' (gl_vertex_array_binding s)) = b /\
  (forall a, a <> gl_vertex_array_binding s -> vertex_array s' a = vertex_array s a).
Proof.
  intros H. unfold glBindBuffer, gl_call in H. inversion H; subst; clear H.
  cbn [Z.eqb GL_ELEMENT_ARRAY_BUFFER GL_ARRAY_BUFFER Pos.eqb].
  split; [reflexivity|]. split; [reflexivity|]. split.
  - now rewrite (vertex_array_update_bound _ (log_call _ s)).
  - intros a Ha. now rewrite (vertex_array_update_bound_ne _ (log_call _ s)).
Qed.

Lemma glBindBuffer_array_inv b s u s' :
  glBindBuffer GL_ARRAY_BUFFER b s = Ok (u, s') ->
  gl_vertex_array_binding s' = gl_vertex_array_binding s /\
  gl_array_buffer_binding s' = b /\
  (forall a, vertex_array s' a = vertex_array s a).
Proof. intros H. inversion H; subst; clear H. repeat split. Qed.

Lemma report_construction_error_cleared s u s' :
  report_construction_error s = Ok (u, s') ->
  gl_error s' = GL_NO_ERROR /\
  gl_vertex_array_binding s' = gl_vertex_array_binding s /\
  gl_array_buffer_binding s' = gl_array_buffer_binding s /\
  (forall a, vertex_array s' a = vertex_array s a) /\
  (std_cerr s' = std_cerr s \/
   exists err, err <> GL_NO_ERROR /\
     std_cerr s' = std_cerr s ++ [Error_Mesh_Construction err]).
Proof.
  unfold report_construction_error. intros H. inv_bind H as err s1 Hc.
  inversion Hc; subst; clear Hc.
  destruct (Z.eqb_spec (gl_error s) GL_NO_ERROR) as [He|He];
    inversion H; subst; clear H; repeat split; auto.
  right. exists (gl_error s). now split.
Qed.

Lemma cleared_after_unbinding s1 s2 s3 s' u1 u2 u3 :
  glBindVertexArray 0 s1 = Ok (u1, s2) ->
  glBindBuffer GL_ARRAY_BUFFER 0 s2 = Ok (u2, s3) ->
  gl_vertex_array_binding s3 = 0 ->
  (forall a, a <> 0 -> vertex_array s3 a = vertex_array s1 a) ->
  std_cerr s3 = std_cerr s1 ->
  gl_array_buffer_binding s3 = 0 ->
  report_construction_error s3 = Ok (u3, s') ->
  same_attribs s1 s' ->
  cleared s1 s'.
Proof.
  intros _ _ Hva Hvao Hcerr Habb Hrep Hsame.
  apply report_construction_error_cleared in Hrep as (Herr & Hva' & Habb' & Hvao' & Hout).
  unfold cleared. rewrite Hva', Habb', Hva, Habb.
  do 3 (split; [reflexivity || exact Herr|]). split.
  - intros a Ha. now rewrite Hvao', Hvao.
  - split; [exact Hsame|]. now rewrite <- Hcerr.
Qed.

Lemma end_of_pointer_constructor {A} (x : A) s1 a s' :
  (glBindVertexArray 0;; glBindBuffer GL_ARRAY_BUFFER 0;;
   glBindBuffer GL_ELEMENT_ARRAY_BUFFER 0;; report_construction_error;;
   (mret x : M A)) s1 = Ok (a, s') ->
  a = x /\ cleared s1 s' /\ element_array_buffer_binding s' = 0.
Proof.
  intros H.
  inv_bind H as u2 s2 H2. pose proof H2 as H2'.
  apply glBindVertexArray_inv in H2' as (Hva2 & _ & Hsame2).
  assert (Hvao2 : forall a, vertex_array s2 a = vertex_array s1 a)
    by (inversion H2; now subst).
  assert (Hcerr2 : std_cerr s2 = std_cerr s1) by (inversion H2; now subst).
  inv_bind H as u3 s3 H3. pose proof H3 as H3'.
  apply glBindBuffer_array_inv in H3' as (Hva3 & Habb3 & Hvao3).
  pose proof (glBindBuffer_cerr _ _ _ _ _ H3) as [Hcerr3 _].
  inv_bind H as u4 s4 H4. pose proof H4 as H4'.
  apply glBindBuffer_element_inv in H4' as (Hva4 & Habb4 & Helem4 & Hvao4).
  pose proof (glBindBuffer_cerr _ _ _ _ _ H4) as [Hcerr4 _].
  pose proof (glBindBuffer_inv _ _ _ _ _ H4) as (_ & Hsame4 & _).
  inv_bind H as u5 s5 H5.
  apply mret_Ok_inv in H as [-> ->]. split; [reflexivity|].
  apply report_construction_error_cleared in H5 as (Herr & Hva5 & Habb5 & Hvao5 & Hout).
  rewrite Hva3, Hva2 in *.
  split.
  - unfold cleared. rewrite Hva5, Habb5, Hva4, Habb4, Habb3.
    do 3 (split; [reflexivity || exact Herr|]). split; [|split].
    + intros b Hb. now rewrite Hvao5, Hvao4, Hvao3, Hvao2.
    + intros b. unfold same_attribs in *. rewrite Hvao5, Hsame4, Hvao3, Hvao2. reflexivity.
    + now rewrite <- Hcerr2, <- Hcerr3, <- Hcerr4.
  - unfold element_array_buffer_binding. now rewrite Hva5, Hva4, Hvao5.
Qed.

Lemma end_of_container_constructor {A} (x : A) s1 a s' :
  (glBindVertexArray 0;; glBindBuffer GL_ARRAY_BUFFER 0;;
   report_construction_error;; (mret x : M A)) s1 = Ok (a, s') ->
  a = x /\ cleared s1 s'.
Proof.
  intros H.
  inv_bind H as u2 s2 H2. pose proof H2 as H2'.
  apply glBindVertexArray_inv in H2' as (Hva2 & _ & Hsame2).
  assert (Hvao2 : forall a, vertex_array s2 a = vertex_array s1 a)
    by (inversion H2; now subst).
  assert (Hcerr2 : std_cerr s2 = std_cerr s1) by (inversion H2; now subst).
  inv_bind H as u3 s3 H3. pose proof H3 as H3'.
  apply glBindBuffer_array_inv in H3' as (Hva3 & Habb3 & Hvao3).
  pose proof (glBindBuffer_cerr _ _ _ _ _ H3) as [Hcerr3 _].
  inv_bind H as u5 s5 H5.
  apply mret_Ok_inv in H as [-> ->]. split; [reflexivity|].
  apply report_construction_error_cleared in H5 as (Herr & Hva5 & Habb5 & Hvao5 & Hout).
  rewrite Hva2 in *.
  unfold cleared. rewrite Hva5, Habb5, Hva3, Habb3.
  do 3 (split; [reflexivity || exact Herr|]). split; [|split].
  - intros b Hb. now rewrite Hvao5, Hvao3, Hvao2.
  - intros b. now rewrite Hvao5, Hvao3, Hvao2.
  - now rewrite <- Hcerr2, <- Hcerr3.
Qed.

(** The start shared by both constructors once the buffers exist: generate
    and bind the vertex array, bind the index buffer. *)
Lemma start_of_wiring {A} (ibo : BufferObject) (k : GLuint -> M A) s a s' :
  bo_target ibo = GL_ELEMENT_ARRAY_BUFFER ->
  (va_handle ← glGenVertexArrays;
   glBindVertexArray va_handle;; BufferObject.bind ibo;; k va_handle) s = Ok (a, s') ->
  exists va s0,
    quiet s s0 /\ 0 < va /\ gl_vertex_array_binding s0 = va /\
    vao_element_array_buffer (vertex_array s0 va) = bo_handle ibo /\
    k va s0 = Ok (a, s').
Proof.
  intros Htarget H.
  inv_bind H as va s3 Hva. pose proof (quiet_glGenVertexArrays _ _ _ Hva) as Hq3.
  assert (Hpos : 0 < va) by (inversion Hva; lia). clear Hva.
  inv_bind H as u4 s4 Hbind. pose proof (quiet_glBindVertexArray _ _ _ _ Hbind) as Hq4.
  apply glBindVertexArray_inv in Hbind as (Hb4 & _ & _).
  inv_bind H as u5 s5 Hbibo. unfold BufferObject.bind in Hbibo. rewrite Htarget in Hbibo.
  pose proof (quiet_glBindBuffer _ _ _ _ _ Hbibo) as Hq5.
  apply glBindBuffer_element_inv in Hbibo as (Hb5 & _ & Helem & _).
  rewrite Hb4 in *.
  exists va, s5.
  split; [exact (quiet_trans _ _ _ (quiet_trans _ _ _ Hq3 Hq4) Hq5)|].
  split; [exact Hpos|]. split; [exact Hb5|]. split; [exact Helem|]. exact H.
Qed.

(** ** The stages of a construction *)

(** A successful construction, in stages: up to the per-attribute loop
    nothing recorded in a vertex array and nothing on std::cerr changes; the
    loop starts with the new, non-zero vertex array bound and the index
    buffer as its element-array buffer; after the loop the bindings are
    cleared. *)
Lemma construct_stages c s m s' :
  construct c s = Ok (m, s') ->
  exists s0 s1,
    quiet s s0 /\
    0 < m_va_handle m /\
    gl_vertex_array_binding s0 = m_va_handle m /\
    vao_element_array_buffer (vertex_array s0 (m_va_handle m)) = bo_handle (m_ibo m) /\
    Forall (fun vbo => bo_target vbo = GL_ARRAY_BUFFER) (m_vbos m) /\
    m_vertex_descriptor m = supplied_layout c /\
    attrib_loop (supplied_layout c) (m_vbos m) s0 = Ok (tt, s1) /\
    cleared s1 s' /\
    (pointer_form c = true -> element_array_buffer_binding s' = 0).
Proof.
  intros H.
  assert (Htargets : Forall (fun vbo => bo_target vbo = GL_ARRAY_BUFFER) (m_vbos m)).
  { apply construct_inv in H as (_ & _ & _ & _ & _ & _ & _ & Hvbos & _).
    apply Forall_lookup. intros k vbo Hk. now apply Hvbos in Hk. }
  destruct c as [vertex_data sizes index_data index_size layout rest
                |VCt ICt VC IC vertex_data index_data layout rest];
    cbn [construct supplied_layout pointer_form] in *.
  - unfold Mesh_from_pointers in H.
    inv_bind H as ibo s1 Hibo.
    pose proof (BufferObject_new_inv _ _ _ _ _ _ _ Hibo) as (Htarget & _ & _).
    apply quiet_BufferObject_new in Hibo.
    inv_bind H as vbos s2 Hvbos.
    apply (preserves_unsigned_for_loop quiet quiet_refl quiet_trans) in Hvbos;
      [|intros; apply quiet_emplace_vbo_pointer].
    apply start_of_wiring in H as (va & s0 & Hq0 & Hpos & Hva & Helem & H);
      [|exact Htarget].
    inv_bind H as u6 s6 Hloop. destruct u6.
    apply end_of_pointer_constructor in H as (-> & Hcleared & Hzero).
    cbn in *. exists s0, s6.
    split; [exact (quiet_trans _ _ _ (quiet_trans _ _ _ Hibo Hvbos) Hq0)|].
    split; [exact Hpos|]. split; [exact Hva|]. split; [exact Helem|].
    split; [exact Htargets|]. split; [reflexivity|]. split; [exact Hloop|].
    split; [exact Hcleared|]. intros _. exact Hzero.
  - unfold Mesh_from_containers in H.
    inv_bind H as ibo s1 Hibo. unfold BufferObject.new_container in Hibo.
    pose proof (BufferObject_new_inv _ _ _ _ _ _ _ Hibo) as (Htarget & _ & _).
    apply quiet_BufferObject_new in Hibo.
    inv_bind H as vbos s2 Hvbos.
    apply (preserves_unsigned_for_loop quiet quiet_refl quiet_trans) in Hvbos;
      [|intros; apply quiet_emplace_vbo_container].
    apply start_of_wiring in H as (va & s0 & Hq0 & Hpos & Hva & Helem & H);
      [|exact Htarget].
    inv_bind H as u6 s6 Hloop. destruct u6. cbv zeta in H.
    apply end_of_container_constructor in H as (-> & Hcleared).
    cbn in *. exists s0, s6.
    split; [exact (quiet_trans _ _ _ (quiet_trans _ _ _ Hibo Hvbos) Hq0)|].
    split; [exact Hpos|]. split; [exact Hva|]. split; [exact Helem|].
    split; [exact Htargets|]. split; [reflexivity|]. split; [exact Hloop|].
    split; [exact Hcleared|]. discriminate.
Qed.

(** ** The context after construction *)

Lemma attrib_loop_effect vertex_descriptor vbos s0 s1 :
  Forall (fun vbo => bo_target vbo = GL_ARRAY_BUFFER) vbos ->
  attrib_loop vertex_descriptor vbos s0 = Ok (tt, s1) ->
  let va := gl_vertex_array_binding s0 in
  std_cerr s1 = std_cerr s0 /\
  (forall a, a <> va -> vertex_array s1 a = vertex_array s0 a) /\
  vao_element_array_buffer (vertex_array s1 va)
  = vao_element_array_buffer (vertex_array s0 va) /\
  (forall j, 0 <= j < attrib_count vertex_descriptor ->
     described vertex_descriptor vbos (vertex_array s0 va) (vertex_array s1 va) j) /\
  (forall j, ~ 0 <= j < attrib_count vertex_descriptor ->
     vertex_attrib (vertex_array s1 va) j = vertex_attrib (vertex_array s0 va) j).
Proof.
  intros Htargets H. unfold attrib_loop in H.
  apply for_loop_attribs_effect in H as (_ & Hcerr & _ & Hother & Helem & Hin & Hout);
    [|exact Htargets].
  assert (Hcount : 0 <= attrib_count vertex_descriptor)
    by (unfold attrib_count, to_GLuint; apply Z.mod_pos_bound; lia).
  cbn zeta. split; [exact Hcerr|]. split; [exact Hother|]. split; [exact Helem|]. split.
  - intros j Hj. apply Hin. lia.
  - intros j Hj. apply Hout. lia.
Qed.

(** X1: a successful construction of either form ends with the vertex-array
    binding and the array-buffer binding at zero; the pointer form also ends
    with the element-array binding of the then-bound default vertex array at
    zero. *)
Theorem construction_clears_bindings (c : Construction) (s : State) (m : Mesh)
    (s' : State)
    (Hconstructed : construct c s = Ok (m, s')) :
  gl_vertex_array_binding s' = 0 /\
  gl_array_buffer_binding s' = 0 /\
  (pointer_form c = true -> element_array_buffer_binding s' = 0).
Proof.
  apply construct_stages in Hconstructed
    as (s0 & s1 & _ & _ & _ & _ & _ & _ & _ & (Hva & Habb & _) & Helem).
  auto.
Qed.

Lemma construction_clears_bindings_witness :
  exists m s', construct five_byte_call gl_init = Ok (m, s') /\
    gl_vertex_array_binding s' = 0 /\ gl_array_buffer_binding s' = 0 /\
    element_array_buffer_binding s' = 0.
Proof.
  destruct (construct five_byte_call gl_init) as [[m s']| |] eqn:Hc;
    [|vm_compute in Hc; discriminate..].
  destruct (construction_clears_bindings _ _ _ _ Hc) as (Hva & Habb & Helem).
  exists m, s'. split; [reflexivity|]. split; [exact Hva|]. split; [exact Habb|].
  apply Helem. reflexivity.
Defined.

(** X2: the vertex array of a constructed Mesh has a non-zero name and
    records the Mesh's index buffer as its element-array buffer: the unbinding
    at the end of the constructors does not undo the capture, and
    bindVertexArray() makes the index buffer the element-array binding. *)
Theorem index_buffer_captured (c : Construction) (s : State) (m : Mesh) (s' : State)
    (Hconstructed : construct c s = Ok (m, s')) :
  m_va_handle m <> 0 /\
  vao_element_array_buffer (vertex_array s' (m_va_handle m)) = bo_handle (getIbo m) /\
  exists s2, bindVertexArray m s' = Ok (tt, s2) /\
    gl_vertex_array_binding s2 = m_va_handle m /\
    element_array_buffer_binding s2 = bo_handle (getIbo m).
Proof.
  apply construct_stages in Hconstructed
    as (s0 & s1 & _ & Hpos & Hva & Helem & Htargets & _ & Hloop & Hcleared & _).
  destruct Hcleared as (_ & _ & _ & Hvao & _).
  apply attrib_loop_effect in Hloop as (_ & _ & Hkeep & _); [|exact Htargets].
  cbn zeta in Hkeep. rewrite Hva in Hkeep.
  assert (Hcaptured : vao_element_array_buffer (vertex_array s' (m_va_handle m))
                      = bo_handle (getIbo m)).
  { rewrite Hvao by lia. unfold getIbo. now rewrite Hkeep. }
  split; [lia|]. split; [exact Hcaptured|].
  eexists. split; [reflexivity|]. split; [reflexivity|]. exact Hcaptured.
Qed.

Lemma index_buffer_captured_witness :
  exists m s' s2, construct five_byte_call gl_init = Ok (m, s') /\
    bindVertexArray m s' = Ok (tt, s2) /\
    element_array_buffer_binding s2 = bo_handle (getIbo m).
Proof.
  destruct (construct five_byte_call gl_init) as [[m s']| |] eqn:Hc;
    [|vm_compute in Hc; discriminate..].
  destruct (index_buffer_captured _ _ _ _ Hc) as (_ & _ & s2 & Hbind & _ & Helem).
  exists m, s', s2. split; [reflexivity|]. split; [exact Hbind|exact Helem].
Defined.

(** X3: for every attribute i the loop visits, the vertex array of the
    constructed Mesh records the layout's attribute i as given: component
    count, component type, normalized flag, and its byte offset as the
    pointer. *)
Theorem attribute_formats (c : Construction) (s : State) (m : Mesh) (s' : State)
    (i : Z)
    (Hconstructed : construct c s = Ok (m, s'))
    (Hvisited : 0 <= i < attrib_count (getVertexLayout m)) :
  exists attribute,
    attributes (getVertexLayout m) !! Z.to_nat i = Some attribute /\
    attrib_size (vertex_attrib (vertex_array s' (m_va_handle m)) i) = size attribute /\
    attrib_type (vertex_attrib (vertex_array s' (m_va_handle m)) i) = type attribute /\
    attrib_normalized (vertex_attrib (vertex_array s' (m_va_handle m)) i)
    = normalized attribute /\
    attrib_pointer (vertex_attrib (vertex_array s' (m_va_handle m)) i) = offset attribute.
Proof.
  apply construct_stages in Hconstructed
    as (s0 & s1 & _ & _ & Hva & _ & Htargets & Hlayout & Hloop & Hcleared & _).
  destruct Hcleared as (_ & _ & _ & _ & Hsame & _).
  unfold getVertexLayout in *. rewrite Hlayout in *.
  apply attrib_loop_effect in Hloop as (_ & _ & _ & Hin & _); [|exact Htargets].
  cbn zeta in Hin. rewrite Hva in Hin.
  destruct (Hin i Hvisited) as (attribute & stride & vbo & Hattr & _ & _ & Heq).
  exists attribute. split; [exact Hattr|].
  unfold vertex_attrib in *. rewrite Hsame, Heq. repeat split.
Qed.

Lemma attribute_formats_witness :
  exists m s', construct five_byte_call gl_init = Ok (m, s') /\
    attrib_size (vertex_attrib (vertex_array s' (m_va_handle m)) 1) = 2 /\
    attrib_pointer (vertex_attrib (vertex_array s' (m_va_handle m)) 1) = 12.
Proof.
  destruct (construct five_byte_call gl_init) as [[m s']| |] eqn:Hc;
    [|vm_compute in Hc; discriminate..].
  assert (Hm : getVertexLayout m = quad_layout).
  { vm_compute in Hc. injection Hc as <- _. reflexivity. }
  assert (Hi : 0 <= 1 < attrib_count (getVertexLayout m)).
  { rewrite Hm. vm_compute. split; [discriminate|reflexivity]. }
  destruct (attribute_formats _ _ _ _ 1 Hc Hi)
    as (attribute & Hattr & Hsize & _ & _ & Hptr).
  rewrite Hm in Hattr. injection Hattr as <-.
  exists m, s'. split; [reflexivity|]. split; [exact Hsize|exact Hptr].
Defined.

(** X4: construction writes attribute slots 0 .. attrib_count-1 of its own
    vertex array and no others: every other slot of that vertex array, and
    every slot of every other vertex array, is as before the constructor
    ran. *)
Theorem construction_attribute_frame (c : Construction) (s : State) (m : Mesh)
    (s' : State) (a : GLuint) (j : Z)
    (Hconstructed : construct c s = Ok (m, s'))
    (Houtside : a <> m_va_handle m \/ ~ 0 <= j < attrib_count (getVertexLayout m)) :
  vertex_attrib (vertex_array s' a) j = vertex_attrib (vertex_array s a) j.
Proof.
  apply construct_stages in Hconstructed
    as (s0 & s1 & [Hq0 _] & _ & Hva & _ & Htargets & Hlayout & Hloop & Hcleared & _).
  destruct Hcleared as (_ & _ & _ & _ & Hsame & _).
  unfold getVertexLayout in *. rewrite Hlayout in *.
  apply attrib_loop_effect in Hloop as (_ & Hother & _ & _ & Hout); [|exact Htargets].
  cbn zeta in *. rewrite Hva in *.
  transitivity (vertex_attrib (vertex_array s1 a) j);
    [unfold vertex_attrib; now rewrite Hsame|].
  transitivity (vertex_attrib (vertex_array s0 a) j);
    [|unfold vertex_attrib; now rewrite Hq0].
  destruct (decide (a = m_va_handle m)) as [->|Hne].
  - apply Hout. destruct Houtside as [Ha|Hj]; [congruence|exact Hj].
  - now rewrite Hother.
Qed.

Lemma construction_attribute_frame_witness :
  exists m s', construct five_byte_call gl_init = Ok (m, s') /\
    vertex_attrib (vertex_array s' (m_va_handle m)) 2 = attrib_init.
Proof.
  destruct (construct five_byte_call gl_init) as [[m s']| |] eqn:Hc;
    [|vm_compute in Hc; discriminate..].
  assert (Hout : m_va_handle m <> m_va_handle m
                 \/ ~ 0 <= 2 < attrib_count (getVertexLayout m)).
  { right. vm_compute in Hc. injection Hc as <- _. vm_compute. intros [_ H]. discriminate. }
  exists m, s'. split; [reflexivity|].
  rewrite (construction_attribute_frame _ _ _ _ _ 2 Hc Hout). reflexivity.
Defined.

(** X5: a successful construction leaves the error flag read and cleared,
    and writes at most one line to std::cerr, a Mesh construction error with a
    non-zero code. *)
Theorem construction_consumes_error_flag (c : Construction) (s : State) (m : Mesh)
    (s' : State)
    (Hconstructed : construct c s = Ok (m, s')) :
  gl_error s' = GL_NO_ERROR /\
  (std_cerr s' = std_cerr s \/
   exists err, err <> GL_NO_ERROR /\
     std_cerr s' = std_cerr s ++ [Error_Mesh_Construction err]).
Proof.
  apply construct_stages in Hconstructed
    as (s0 & s1 & [_ Hcerr0] & _ & _ & _ & Htargets & _ & Hloop & Hcleared & _).
  destruct Hcleared as (_ & _ & Herr & _ & _ & Hout).
  apply attrib_loop_effect in Hloop as (Hcerr1 & _); [|exact Htargets].
  split; [exact Herr|]. now rewrite Hcerr1, Hcerr0 in Hout.
Qed.

Lemma construction_consumes_error_flag_witness :
  exists m s', construct five_byte_call gl_init = Ok (m, s') /\
    gl_error s' = GL_NO_ERROR.
Proof.
  destruct (construct five_byte_call gl_init) as [[m s']| |] eqn:Hc;
    [|vm_compute in Hc; discriminate..].
  exists m, s'. split; [reflexivity|].
  exact (proj1 (construction_consumes_error_flag _ _ _ _ Hc)).
Defined.

(** X6: draw on a Mesh right after its construction returns with both the
    vertex-array binding and the array-buffer binding at zero. *)
Theorem draw_after_construction (c : Construction) (s : State) (m : Mesh)
    (s' : State) (instance_cnt : GLsizei)
    (Hconstructed : construct c s = Ok (m, s')) :
  exists s2, draw m instance_cnt s' = Ok (tt, s2) /\
    gl_vertex_array_binding s2 = 0 /\ gl_array_buffer_binding s2 = 0.
Proof.
  apply construct_stages in Hconstructed
    as (s0 & s1 & _ & _ & _ & _ & _ & _ & _ & (_ & Habb & _) & _).
  eexists. rewrite draw_run. split; [reflexivity|]. split; [reflexivity|exact Habb].
Qed.

Lemma draw_after_construction_witness :
  exists m s' s2, construct five_byte_call gl_init = Ok (m, s') /\
    draw m 1 s' = Ok (tt, s2) /\
    gl_vertex_array_binding s2 = 0 /\ gl_array_buffer_binding s2 = 0.
Proof.
  destruct (construct five_byte_call gl_init) as [[m s']| |] eqn:Hc;
    [|vm_compute in Hc; discriminate..].
  destruct (draw_after_construction _ _ _ _ 1 Hc) as (s2 & Hdraw & Hva & Habb).
  exists m, s', s2. auto.
Defined.

(** ** Inputs that are too short *)

Lemma bind_OutOfBounds {A B} (c : M A) (f : A -> M B) s :
  c s = OutOfBounds -> (c ≫= f) s = OutOfBounds.
Proof. intros H. unfold mbind, M_bind. now rewrite H. Qed.

Lemma at_index_cases {A} (v : list A) i s :
  (exists x, v !! Z.to_nat i = Some x /\ at_index v i s = Ok (x, s)) \/
  (v !! Z.to_nat i = None /\ at_index v i s = OutOfBounds).
Proof.
  unfold at_index. destruct (v !! Z.to_nat i) as [x|]; [left; now exists x|now right].
Qed.

Lemma for_loop_never_diverges {A} (body : Z -> A -> M A) :
  (forall j acc s, body j acc s <> Diverges) ->
  forall n i acc s, for_loop n i body acc s <> Diverges.
Proof.
  intros Hbody. induction n as [|n IH]; intros i acc s; cbn [for_loop].
  - discriminate.
  - destruct (body i acc s) as [[acc1 s1]| |] eqn:H1.
    + rewrite (bind_Ok _ _ _ _ _ H1). apply IH.
    + now rewrite (bind_OutOfBounds _ _ _ H1).
    + now apply Hbody in H1.
Qed.

(** A loop one of whose rounds is out of bounds, whatever came before. *)
Lemma for_loop_fails {A} (body : Z -> A -> M A) :
  (forall j acc s, body j acc s <> Diverges) ->
  forall n i acc s k,
    i <= k < i + Z.of_nat n ->
    (forall acc' s', body k acc' s' = OutOfBounds) ->
    for_loop n i body acc s = OutOfBounds.
Proof.
  intros Hbody. induction n as [|n IH]; intros i acc s k Hk Hfail; [lia|].
  cbn [for_loop].
  destruct (body i acc s) as [[acc1 s1]| |] eqn:H1.
  - rewrite (bind_Ok _ _ _ _ _ H1).
    destruct (decide (k = i)) as [->|Hne]; [now rewrite Hfail in H1|].
    apply (IH _ _ _ k); [lia|exact Hfail].
  - now apply bind_OutOfBounds.
  - now apply Hbody in H1.
Qed.

Lemma emplace_vbo_pointer_never_diverges vertex_data sizes usage j acc s :
  emplace_vbo_pointer vertex_data sizes usage j acc s <> Diverges.
Proof.
  unfold emplace_vbo_pointer.
  destruct (at_index_cases vertex_data j s) as [(data & _ & Hd)|[_ Hd]];
    [rewrite (bind_Ok _ _ _ _ _ Hd)|now rewrite (bind_OutOfBounds _ _ _ Hd)].
  destruct (at_index_cases sizes j s) as [(sz & _ & Hs)|[_ Hs]];
    [rewrite (bind_Ok _ _ _ _ _ Hs)|now rewrite (bind_OutOfBounds _ _ _ Hs)].
  discriminate.
Qed.

Lemma emplace_vbo_pointer_fails vertex_data sizes usage j acc s :
  sizes !! Z.to_nat j = None ->
  emplace_vbo_pointer vertex_data sizes usage j acc s = OutOfBounds.
Proof.
  intros Hnone. unfold emplace_vbo_pointer.
  destruct (at_index_cases vertex_data j s) as [(data & _ & Hd)|[_ Hd]];
    [rewrite (bind_Ok _ _ _ _ _ Hd)|now rewrite (bind_OutOfBounds _ _ _ Hd)].
  apply bind_OutOfBounds. unfold at_index, size_t in *. now rewrite Hnone.
Qed.

Lemma emplace_vbo_container_never_diverges {C} `{Container C}
    (vertex_data : list C) usage j acc s :
  emplace_vbo_container vertex_data usage j acc s <> Diverges.
Proof.
  unfold emplace_vbo_container.
  destruct (at_index_cases vertex_data j s) as [(data & _ & Hd)|[_ Hd]];
    [rewrite (bind_Ok _ _ _ _ _ Hd)|now rewrite (bind_OutOfBounds _ _ _ Hd)].
  discriminate.
Qed.

Lemma attrib_body_never_diverges vertex_descriptor vbos j u s :
  attrib_body vertex_descriptor vbos j u s <> Diverges.
Proof.
  unfold attrib_body.
  destruct (at_index_cases (attributes vertex_descriptor) j s) as [(a & _ & Ha)|[_ Ha]];
    [rewrite (bind_Ok _ _ _ _ _ Ha)|now rewrite (bind_OutOfBounds _ _ _ Ha)].
  destruct (Nat.eqb (length (strides vertex_descriptor)) 1).
  - destruct (at_index_cases (strides vertex_descriptor) 0 s) as [(st & _ & Hs)|[_ Hs]];
      [rewrite (bind_Ok _ _ _ _ _ Hs)|now rewrite (bind_OutOfBounds _ _ _ Hs)].
    destruct (at_index_cases vbos j s) as [(vbo & _ & Hv)|[_ Hv]];
      [rewrite (bind_Ok _ _ _ _ _ Hv)|now rewrite (bind_OutOfBounds _ _ _ Hv)].
    discriminate.
  - destruct (at_index_cases (strides vertex_descriptor) j s) as [(st & _ & Hs)|[_ Hs]];
      [rewrite (bind_Ok _ _ _ _ _ Hs)|now rewrite (bind_OutOfBounds _ _ _ Hs)].
    destruct (at_index_cases vbos j s) as [(vbo & _ & Hv)|[_ Hv]];
      [rewrite (bind_Ok _ _ _ _ _ Hv)|now rewrite (bind_OutOfBounds _ _ _ Hv)].
    discriminate.
Qed.

Lemma attrib_body_fails vertex_descriptor vbos j u s :
  vbos !! Z.to_nat j = None \/ stride_of vertex_descriptor (Z.to_nat j) = None ->
  attrib_body vertex_descriptor vbos j u s = OutOfBounds.
Proof.
  intros Hnone. unfold attrib_body, stride_of in *.
  destruct (at_index_cases (attributes vertex_descriptor) j s) as [(a & _ & Ha)|[_ Ha]];
    [rewrite (bind_Ok _ _ _ _ _ Ha)|now rewrite (bind_OutOfBounds _ _ _ Ha)].
  destruct (Nat.eqb (length (strides vertex_descriptor)) 1).
  - destruct (at_index_cases (strides vertex_descriptor) 0 s) as [(st & Hst & Hs)|[_ Hs]];
      [rewrite (bind_Ok _ _ _ _ _ Hs)|now rewrite (bind_OutOfBounds _ _ _ Hs)].
    destruct Hnone as [Hv|Hs']; [|change (Z.to_nat 0) with 0%nat in Hst; congruence].
    apply bind_OutOfBounds. unfold at_index. now rewrite Hv.
  - destruct (at_index_cases (strides vertex_descriptor) j s) as [(st & Hst & Hs)|[_ Hs]];
      [rewrite (bind_Ok _ _ _ _ _ Hs)|now rewrite (bind_OutOfBounds _ _ _ Hs)].
    destruct Hnone as [Hv|Hs']; [|congruence].
    apply bind_OutOfBounds. unfold at_index. now rewrite Hv.
Qed.

Lemma attrib_loop_fails vertex_descriptor vbos s :
  Z.of_nat (length vbos) < attrib_count vertex_descriptor \/
  (length (strides vertex_descriptor) <> 1%nat /\
   Z.of_nat (length (strides vertex_descriptor)) < attrib_count vertex_descriptor) ->
  attrib_loop vertex_descriptor vbos s = OutOfBounds.
Proof.
  intros Hshort. unfold attrib_loop.
  destruct Hshort as [Hvbos|[Hne Hstrides]].
  - apply (for_loop_fails _ (attrib_body_never_diverges _ _) _ _ _ _
             (Z.of_nat (length vbos))); [lia|].
    intros u s'. apply attrib_body_fails. left.
    apply lookup_ge_None. lia.
  - apply (for_loop_fails _ (attrib_body_never_diverges _ _) _ _ _ _
             (Z.of_nat (length (strides vertex_descriptor)))); [lia|].
    intros u s'. apply attrib_body_fails. right. unfold stride_of.
    apply Nat.eqb_neq in Hne. rewrite Hne. apply lookup_ge_None. lia.
Qed.

Lemma fails_after {A B} (c : M A) (f : A -> M B) s a s1 :
  c s = Ok (a, s1) -> f a s1 = OutOfBounds -> (c ≫= f) s = OutOfBounds.
Proof. intros Hc Hf. now rewrite (bind_Ok _ _ _ _ _ Hc). Qed.

Lemma construct_short_input (c : Construction) (s : State) :
  Z.of_nat (supplied_vertex_buffers c) < 2 ^ 32 ->
  ~ byte_sizes_cover c \/
  Z.of_nat (supplied_vertex_buffers c) < attrib_count (supplied_layout c) \/
  (length (strides (supplied_layout c)) <> 1%nat /\
   Z.of_nat (length (strides (supplied_layout c)))
   < attrib_count (supplied_layout c)) ->
  construct c s = OutOfBounds.
Proof.
  intros Hcount Hshort.
  destruct c as [vertex_data sizes index_data index_size layout rest
                |VCt ICt VC IC vertex_data index_data layout rest];
    cbn [construct supplied_layout supplied_vertex_buffers byte_sizes_cover] in *.
  - unfold Mesh_from_pointers. eapply fails_after; [reflexivity|].
    match goal with |- (unsigned_for_loop ?n ?b ?a ≫= _) ?st = _ =>
      destruct (unsigned_for_loop n b a st) as [[vbos s2]| |] eqn:Hloop end.
    + rewrite (bind_Ok _ _ _ _ _ Hloop).
      apply unsigned_for_loop_Ok_inv in Hloop as [_ Hloop].
      destruct Hshort as [Hsizes|Hshort].
      { exfalso. apply Nat.nle_gt in Hsizes.
        rewrite (for_loop_fails _ (emplace_vbo_pointer_never_diverges _ _ _) _ _ _ _
                   (Z.of_nat (length sizes))) in Hloop; [discriminate|lia|].
        intros acc' s'. apply emplace_vbo_pointer_fails.
        apply lookup_ge_None. lia. }
      apply for_loop_length in Hloop; [|apply emplace_vbo_pointer_appends].
      rewrite <- Hloop in Hshort.
      eapply fails_after; [reflexivity|]. eapply fails_after; [reflexivity|].
      eapply fails_after; [reflexivity|].
      apply bind_OutOfBounds. now apply attrib_loop_fails.
    + now apply bind_OutOfBounds.
    + exfalso. unfold unsigned_for_loop in Hloop.
      apply Z.leb_gt in Hcount. rewrite Hcount in Hloop.
      now apply (for_loop_never_diverges _ (emplace_vbo_pointer_never_diverges _ _ _)) in Hloop.
  - unfold Mesh_from_containers. eapply fails_after; [reflexivity|].
    match goal with |- (unsigned_for_loop ?n ?b ?a ≫= _) ?st = _ =>
      destruct (unsigned_for_loop n b a st) as [[vbos s2]| |] eqn:Hloop end.
    + rewrite (bind_Ok _ _ _ _ _ Hloop).
      apply unsigned_for_loop_Ok_inv in Hloop as [_ Hloop].
      destruct Hshort as [Hsizes|Hshort]; [now exfalso|].
      apply for_loop_length in Hloop; [|apply emplace_vbo_container_appends].
      rewrite <- Hloop in Hshort.
      eapply fails_after; [reflexivity|]. eapply fails_after; [reflexivity|].
      eapply fails_after; [reflexivity|].
      apply bind_OutOfBounds. now apply attrib_loop_fails.
    + now apply bind_OutOfBounds.
    + exfalso. unfold unsigned_for_loop in Hloop.
      apply Z.leb_gt in Hcount. rewrite Hcount in Hloop.
      now apply (for_loop_never_diverges _ (emplace_vbo_container_never_diverges _ _)) in Hloop.
Qed.

(** X7: with fewer than 2^32 vertex buffers, a constructor call reads a
    vector out of range whenever the vertex buffers are fewer than the
    attributes the loop visits, or the strides are not exactly one and fewer
    than those attributes, or (pointer form) the byte sizes are fewer than the
    vertex-data pointers. *)
Theorem short_input_out_of_bounds (c : Construction) (s : State)
    (Hcount : Z.of_nat (supplied_vertex_buffers c) < 2 ^ 32)
    (Hshort : ~ byte_sizes_cover c \/
              Z.of_nat (supplied_vertex_buffers c) < attrib_count (supplied_layout c) \/
              (length (strides (supplied_layout c)) <> 1%nat /\
               Z.of_nat (length (strides (supplied_layout c)))
               < attrib_count (supplied_layout c))) :
  construct c s = OutOfBounds.
Proof. now apply construct_short_input. Qed.

Lemma short_input_out_of_bounds_witness :
  construct single_vbo_quad_call gl_init = OutOfBounds.
Proof.
  apply short_input_out_of_bounds.
  - vm_compute. reflexivity.
  - right. left. vm_compute. reflexivity.
Defined.

Lemma attrib_loop_total_visited vertex_descriptor vbos s :
  attrib_count vertex_descriptor <= Z.of_nat (length vbos) ->
  (length (strides vertex_descriptor) <> 1%nat ->
   attrib_count vertex_descriptor <= Z.of_nat (length (strides vertex_descriptor))) ->
  exists s', attrib_loop vertex_descriptor vbos s = Ok (tt, s').
Proof.
  intros Hvbos Hstrides. unfold attrib_loop.
  pose proof (attrib_count_le vertex_descriptor).
  apply for_loop_attribs_total; lia.
Qed.

Ltac run_attrib_loop_visited Hvbos Hstrides :=
  match goal with
  | |- succeeds ((attrib_loop ?l ?v ≫= _) ?st) =>
      let s6 := fresh "s" in let H6 := fresh "H" in
      destruct (attrib_loop_total_visited l v st Hvbos Hstrides) as [s6 H6];
      apply (succeeds_bind _ _ _ _ _ H6)
  end.

Lemma construct_long_input (c : Construction) (s : State) :
  Z.of_nat (supplied_vertex_buffers c) < 2 ^ 32 ->
  byte_sizes_cover c ->
  attrib_count (supplied_layout c) <= Z.of_nat (supplied_vertex_buffers c) ->
  (length (strides (supplied_layout c)) <> 1%nat ->
   attrib_count (supplied_layout c) <= Z.of_nat (length (strides (supplied_layout c)))) ->
  succeeds (construct c s).
Proof.
  intros Hcount Hsizes Hvbos Hstrides.
  destruct c as [vertex_data sizes index_data index_size layout rest
                |VCt ICt VC IC vertex_data index_data layout rest];
    cbn [construct supplied_layout supplied_vertex_buffers byte_sizes_cover] in *.
  - unfold Mesh_from_pointers. run_call.
    match goal with |- succeeds ((unsigned_for_loop ?n ?b ?a ≫= _) ?st) =>
      assert (Hloop : succeeds (unsigned_for_loop n b a st)) end.
    { unfold unsigned_for_loop. apply Z.leb_gt in Hcount. rewrite Hcount.
      apply for_loop_succeeds. intros k acc' s' Hk.
      apply emplace_vbo_pointer_succeeds; lia. }
    destruct Hloop as (vbos & s2 & Hloop). apply (succeeds_bind _ _ _ _ _ Hloop).
    apply unsigned_for_loop_Ok_inv in Hloop as [_ Hloop].
    apply for_loop_length in Hloop; [|apply emplace_vbo_pointer_appends].
    rewrite <- Hloop in Hvbos.
    run_call. run_call. run_call. run_attrib_loop_visited Hvbos Hstrides.
    run_call. run_call. run_call. run_report. now eexists _, _.
  - unfold Mesh_from_containers. run_call.
    match goal with |- succeeds ((unsigned_for_loop ?n ?b ?a ≫= _) ?st) =>
      assert (Hloop : succeeds (unsigned_for_loop n b a st)) end.
    { unfold unsigned_for_loop. apply Z.leb_gt in Hcount. rewrite Hcount.
      apply for_loop_succeeds. intros k acc' s' Hk.
      apply emplace_vbo_container_succeeds; lia. }
    destruct Hloop as (vbos & s2 & Hloop). apply (succeeds_bind _ _ _ _ _ Hloop).
    apply unsigned_for_loop_Ok_inv in Hloop as [_ Hloop].
    apply for_loop_length in Hloop; [|apply emplace_vbo_container_appends].
    rewrite <- Hloop in Hvbos.
    run_call. run_call. run_call. run_attrib_loop_visited Hvbos Hstrides.
    run_call. run_call. run_report. now eexists _, _.
Qed.

(** X8: with fewer than 2^32 vertex buffers, a constructor call returns a
    Mesh exactly when there is a byte size for every vertex-data pointer
    (pointer form), at least as many vertex buffers as attributes the loop
    visits, and either exactly one stride or at least as many strides as those
    attributes. *)
Theorem construction_succeeds_iff (c : Construction) (s : State)
    (Hcount : Z.of_nat (supplied_vertex_buffers c) < 2 ^ 32) :
  (exists m s', construct c s = Ok (m, s')) <->
  byte_sizes_cover c /\
  attrib_count (supplied_layout c) <= Z.of_nat (supplied_vertex_buffers c) /\
  (length (strides (supplied_layout c)) = 1%nat \/
   attrib_count (supplied_layout c) <= Z.of_nat (length (strides (supplied_layout c)))).
Proof.
  split.
  - intros (m & s' & Hok).
    assert (Hcover : byte_sizes_cover c \/ ~ byte_sizes_cover c).
    { destruct c; cbn [byte_sizes_cover]; [lia|now left]. }
    destruct Hcover as [Hcover|Hcover];
      [|rewrite construct_short_input in Hok by auto; discriminate].
    split; [exact Hcover|].
    destruct (Z_lt_le_dec (Z.of_nat (supplied_vertex_buffers c))
                (attrib_count (supplied_layout c))) as [Hlt|Hle];
      [rewrite construct_short_input in Hok by auto; discriminate|].
    split; [exact Hle|].
    destruct (decide (length (strides (supplied_layout c)) = 1%nat)) as [H1|H1];
      [now left|right].
    destruct (Z_lt_le_dec (Z.of_nat (length (strides (supplied_layout c))))
                (attrib_count (supplied_layout c))) as [Hlt|Hle'];
      [rewrite construct_short_input in Hok by auto; discriminate|exact Hle'].
  - intros (Hcover & Hvbos & Hstrides).
    apply construct_long_input; try assumption.
    intros Hne. destruct Hstrides as [H1|Hle]; [congruence|exact Hle].
Qed.

Lemma construction_succeeds_iff_witness :
  exists m s', construct five_byte_call gl_init = Ok (m, s').
Proof.
  apply (construction_succeeds_iff five_byte_call gl_init).
  - vm_compute. reflexivity.
  - split; [cbn; lia|]. split; [vm_compute; discriminate|]. left. reflexivity.
Defined.

(** ** Drawing a constructed Mesh *)

Lemma constructed_indices_cnt_div c s m s' e :
  construct c s = Ok (m, s') ->
  element_size (m_index_type m) = Some e ->
  0 <= bo_byte_size (m_ibo m) < 2 ^ 32 ->
  m_indices_cnt m = bo_byte_size (m_ibo m) / e.
Proof.
  intros Hc He Hsize.
  apply construct_inv in Hc as (Htype & _ & _ & _ & Hibo & Hcnt & _).
  rewrite Hcnt. rewrite Hibo, Htype in *.
  destruct c; cbn [computed_indices_cnt supplied_index_byte_size rest_args] in *.
  - now apply indices_cnt_of_byte_size_div.
  - now apply indices_cnt_of_vi_size_div.
Qed.

Lemma to_GLsizei_small z : 0 <= z < 2 ^ 31 -> to_GLsizei z = z.
Proof. intros H. unfold to_GLsizei. rewrite Z.mod_small by lia. lia. Qed.

(** X9: for a Mesh constructed with an 8-, 16- or 32-bit unsigned index
    type of element size e and an index buffer of fewer than 2^31 bytes,
    draw(n) right after construction issues its glDrawElementsInstanced with
    the count getIndexBufferByteSize() / e: the number of whole indices in the
    index data. *)
Theorem draw_count_after_construction (c : Construction) (s : State) (m : Mesh)
    (s' : State) (e : Z) (instance_cnt : GLsizei)
    (Hconstructed : construct c s = Ok (m, s'))
    (Helement : element_size (getIndexType m) = Some e)
    (Hsize : 0 <= getIndexBufferByteSize m < 2 ^ 31) :
  exists s2, draw m instance_cnt s' = Ok (tt, s2) /\
    gl_calls s2 = gl_calls s' ++
      [BindVertexArray (m_va_handle m);
       DrawElementsInstanced (getPrimitiveType m) (getIndexBufferByteSize m / e)
         (getIndexType m) 0 instance_cnt;
       BindVertexArray 0].
Proof.
  unfold getIndexType, getIndexBufferByteSize, getPrimitiveType,
    BufferObject.getByteSize in *.
  assert (Hcnt : m_indices_cnt m = bo_byte_size (m_ibo m) / e)
    by (eapply constructed_indices_cnt_div; eauto; lia).
  assert (0 < e)
    by (destruct (element_size_cases _ _ Helement) as [[_ ->]|[[_ ->]|[_ ->]]]; lia).
  assert (Hsmall : 0 <= bo_byte_size (m_ibo m) / e < 2 ^ 31).
  { split; [apply Z.div_pos; lia|]. apply Z.div_lt_upper_bound; nia. }
  eexists. rewrite draw_run. split; [reflexivity|].
  cbn. rewrite Hcnt, (to_GLsizei_small _ Hsmall). now rewrite <- !app_assoc.
Qed.

Lemma draw_count_after_construction_witness :
  exists m s' s2, construct five_byte_call gl_init = Ok (m, s') /\
    draw m 3 s' = Ok (tt, s2) /\
    gl_calls s2 = gl_calls s' ++
      [BindVertexArray (m_va_handle m);
       DrawElementsInstanced GL_TRIANGLES 1 GL_UNSIGNED_INT 0 3;
       BindVertexArray 0].
Proof.
  destruct (construct five_byte_call gl_init) as [[m s']| |] eqn:Hc;
    [|vm_compute in Hc; discriminate..].
  assert (Hm : getIndexType m = GL_UNSIGNED_INT /\ getPrimitiveType m = GL_TRIANGLES
               /\ getIndexBufferByteSize m = 5).
  { vm_compute in Hc. injection Hc as <- _. repeat split. }
  destruct Hm as (Htype & Hprim & Hbytes).
  assert (He : element_size (getIndexType m) = Some 4) by now rewrite Htype.
  assert (Hsize : 0 <= getIndexBufferByteSize m < 2 ^ 31) by (rewrite Hbytes; lia).
  destruct (draw_count_after_construction _ _ _ _ 4 3 Hc He Hsize) as (s2 & Hdraw & Hlog).
  rewrite Htype, Hprim, Hbytes in Hlog.
  exists m, s', s2. split; [reflexivity|]. split; [exact Hdraw|exact Hlog].
Defined.

(** ** The count draw passes for a large index buffer *)

(** C6, counterexample: a Mesh constructed over 2^31 bytes of 8-bit indices
    stores the indices count 2^31, and draw passes the count -2^31. *)
Lemma draw_count_counterexample :
  exists m s' s2, construct two_gib_index_call gl_init = Ok (m, s') /\
    getIndicesCount m = 2147483648 /\
    draw m 1 s' = Ok (tt, s2) /\
    gl_calls s2 = gl_calls s' ++
      [BindVertexArray (m_va_handle m);
       DrawElementsInstanced GL_TRIANGLES (-2147483648) GL_UNSIGNED_BYTE 0 1;
       BindVertexArray 0] /\
    -2147483648 <> getIndicesCount m.
Proof.
  destruct (construct_long_input two_gib_index_call gl_init) as (m & s' & Hc).
  - unfold two_gib_index_call. cbn [supplied_vertex_buffers length]. lia.
  - unfold two_gib_index_call. cbn [byte_sizes_cover length]. lia.
  - unfold two_gib_index_call. cbn [supplied_vertex_buffers supplied_layout length].
    vm_compute. discriminate.
  - unfold two_gib_index_call. cbn [supplied_layout]. intros Hne. now contradict Hne.
  - pose proof (construct_inv _ _ _ _ Hc) as (Htype & _ & Hprim & _ & _ & Hcnt & _).
    unfold two_gib_index_call in Htype, Hprim, Hcnt.
    cbn [rest_args index_type_arg primitive_type_arg computed_indices_cnt] in *.
    assert (Hvalue : indices_cnt_of_byte_size GL_UNSIGNED_BYTE (2 ^ 31) 0 = 2147483648)
      by (vm_compute; reflexivity).
    rewrite Hvalue in Hcnt.
    exists m, s'. eexists. split; [exact Hc|].
    unfold getIndicesCount. split; [exact Hcnt|].
    rewrite draw_run. split; [reflexivity|]. split; [|rewrite Hcnt; discriminate].
    cbn [gl_calls set_vertex_array_binding log_call].
    rewrite Hcnt, Htype, Hprim, <- !app_assoc. reflexivity.
Qed.
